(** * The S3 collector of pipeline runs (pkg/cluster/tekton/collector/collector_s3.go)

    A shallow embedding of the collector: Go byte slices with their shared
    backing arrays, the log merge worker with its two channels, the storage
    keys, and [Collect] and the read path over an explicit trace of the calls
    made to the object store, the orchestrator and the local audit logger. *)

From Stdlib Require Import ZArith Lia.
From Stdlib.Strings Require Import String Ascii Byte.
From Stdlib Require Import DecimalString.
From stdpp Require Import base option list gmap strings.

Local Open Scope Z_scope.

(** ** Go byte slices

    A slice is a window on a backing array kept in a heap; two slices cut from
    one slice share that array, and [append] writes in place while the
    capacity allows it. *)
Module GoSlice.

Definition loc := positive.

Record slice := Slice { ptr : loc; off : nat; len : nat; cap : nat }.

Abbreviation heap := (gmap loc (list byte)).

(** The backing array of [s] holds all of its capacity. *)
Definition slice_wf (h : heap) (s : slice) : Prop :=
  ∃ a, h !! ptr s = Some a ∧ (off s + cap s ≤ length a)%nat ∧ (len s ≤ cap s)%nat.

(** The bytes a slice denotes: [string(s)], or ranging over [s]. *)
Definition bytes_of (h : heap) (s : slice) : list byte :=
  match h !! ptr s with
  | Some a => take (len s) (drop (off s) a)
  | None => []
  end.

(** [s[:hi]]: the upper bound of a slice expression is checked against the
    capacity; out of range is a run-time panic, here [None]. *)
Definition slice_to (s : slice) (hi : Z) : option slice :=
  if (0 <=? hi) && (hi <=? Z.of_nat (cap s))
  then Some {| ptr := ptr s; off := off s; len := Z.to_nat hi; cap := cap s |}
  else None.

(** [s[lo:]]: the missing upper bound is [len(s)], so [lo] is checked
    against the length. *)
Definition slice_from (s : slice) (lo : Z) : option slice :=
  if (0 <=? lo) && (lo <=? Z.of_nat (len s))
  then Some {| ptr := ptr s; off := (off s + Z.to_nat lo)%nat;
               len := (len s - Z.to_nat lo)%nat; cap := (cap s - Z.to_nat lo)%nat |}
  else None.

(** Overwrite [a] from index [i] with [bs]. *)
Definition store_bytes (a : list byte) (i : nat) (bs : list byte) : list byte :=
  take i a ++ bs ++ drop (i + length bs) a.

Section Append.
(** The spare capacity the runtime adds when [append] has to reallocate
    (old capacity, needed length); the growth policy is the runtime's. *)
Variable growslice : nat → nat → nat.

(** [append(s, bs...)]: in place when the capacity suffices, otherwise into
    a fresh array. The source bytes are read before anything is written
    (the runtime copies with memmove). *)
Definition append (h : heap) (s : slice) (bs : list byte) : slice * heap :=
  let n := (len s + length bs)%nat in
  if decide (n ≤ cap s)%nat then
    match h !! ptr s with
    | Some a =>
        ({| ptr := ptr s; off := off s; len := n; cap := cap s |},
         <[ptr s := store_bytes a (off s + len s) bs]> h)
    | None => ({| ptr := ptr s; off := off s; len := n; cap := cap s |}, h)
    end
  else
    let p := fresh (dom h) in
    let extra := growslice (cap s) n in
    ({| ptr := p; off := 0; len := n; cap := (n + extra)%nat |},
     <[p := bytes_of h s ++ bs ++ replicate extra x00]> h).

(** The six bytes of the marker ["......"]. *)
Definition marker : list byte := replicate 6 x2e.

(** func cutByteInMiddle(data []byte, limit int, begin int, end int) []byte *)
Definition cutByteInMiddle (h : heap) (data : slice) (limit begin end_ : Z)
  : option (slice * heap) :=
  let l := Z.of_nat (len data) in
  if (0 <? limit) && (l <? limit) then Some (data, h)
  else
    b1 ← slice_to data begin;
    b2 ← slice_from data end_;
    let '(b1, h1) := append h b1 marker in
    let '(b1, h2) := append h1 b1 (bytes_of h1 b2) in
    Some (b1, h2).
End Append.

(** _mb = 1024 * 1024 and _limitSize = _mb * 2.5, an exact integer constant. *)
Definition _mb : Z := 1024 * 1024.
Definition _limitSize : Z := 2621440.

(** A freshly allocated slice holding [b], with [spare] beyond its length. *)
Definition alloc (b spare : list byte) : slice * heap :=
  ({| ptr := 1%positive; off := 0; len := length b; cap := length (b ++ spare) |},
   {[ 1%positive := b ++ spare ]}).

End GoSlice.

(** ** The log merge worker of [collectLog] *)
Module Merge.

(** One record of the orchestrator's log stream; the worker reads its
    fields Task, Step and Log. *)
Record Log := { Task : string; Step : string; Log_ : string }.

(** A receive-only channel as the worker sees it: the values still to be
    delivered, in order, and whether the sender closes the channel after
    them. *)
Record chan (A : Type) := Chan { pending : list A; closes : bool }.
Arguments Chan {A} _ _.
Arguments pending {A} _.
Arguments closes {A} _.

Definition nl : string := String "010" EmptyString.

(** fmt.Sprintf("[%s : %s] %s\n", l.Task, l.Step, l.Log) *)
Definition format_log (l : Log) : string :=
  "[" +:+ Task l +:+ " : " +:+ Step l +:+ "] " +:+ Log_ l +:+ nl.

(** fmt.Sprintf("%s\n", e) *)
Definition format_err (e : string) : string := e +:+ nl.

(** The goroutine's variables: logC and errC ([None] is the nil channel)
    and what it has written to the pipe, one element per Write. *)
Record worker := Worker {
  logC : option (chan Log);
  errC : option (chan string);
  pipe : list string
}.

(** case l, ok := <-logC *)
Definition recv_log (c : chan Log) (s : worker) : worker :=
  match pending c with
  | [] => {| logC := None; errC := errC s; pipe := pipe s |}
  | l :: rest =>
      let c' := Some (Chan rest (closes c)) in
      if String.eqb (Log_ l) "EOFLOG"
      then {| logC := c'; errC := errC s; pipe := pipe s ++ [nl] |}
      else {| logC := c'; errC := errC s; pipe := pipe s ++ [format_log l] |}
  end.

(** case e, ok := <-errC *)
Definition recv_err (c : chan string) (s : worker) : worker :=
  match pending c with
  | [] => {| logC := logC s; errC := None; pipe := pipe s |}
  | e :: rest =>
      {| logC := logC s; errC := Some (Chan rest (closes c));
         pipe := pipe s ++ [format_err e] |}
  end.

(** A receive can proceed on a channel that is not nil and that has a value
    to deliver or is closed. *)
Definition ready {A} (c : option (chan A)) : bool :=
  match c with
  | Some c => match pending c with [] => closes c | _ :: _ => true end
  | None => false
  end.

Inductive side := LogSide | ErrSide.

(** select: the case the scheduler favours when it can proceed, else the
    other one; [None] when neither ever can. *)
Definition select (favoured : side) (s : worker) : option side :=
  match favoured with
  | LogSide => if ready (logC s) then Some LogSide
               else if ready (errC s) then Some ErrSide else None
  | ErrSide => if ready (errC s) then Some ErrSide
               else if ready (logC s) then Some LogSide else None
  end.

(** How the goroutine ends: the loop exits and the deferred w.Close() runs,
    or it stays blocked in select. *)
Inductive exit := PipeClosed | BlockedForever.

(** for logC != nil || errC != nil { select { ... } }, one iteration per
    unit of fuel; [sched i] is the case favoured at iteration [i]. *)
Fixpoint run (fuel : nat) (sched : nat → side) (i : nat) (s : worker)
  : option (exit * worker) :=
  match fuel with
  | O => None
  | S fuel =>
      match logC s, errC s with
      | None, None => Some (PipeClosed, s)
      | _, _ =>
          match select (sched i) s with
          | None => Some (BlockedForever, s)
          | Some LogSide =>
              match logC s with
              | Some c => run fuel sched (S i) (recv_log c s)
              | None => Some (BlockedForever, s)
              end
          | Some ErrSide =>
              match errC s with
              | Some c => run fuel sched (S i) (recv_err c s)
              | None => Some (BlockedForever, s)
              end
          end
      end
  end.

Definition start (logs : chan Log) (errs : chan string) : worker :=
  {| logC := Some logs; errC := Some errs; pipe := [] |}.

(** Iterations that always suffice: every value, both closures, the exit. *)
Definition enough (logs : chan Log) (errs : chan string) : nat :=
  S (S (S (length (pending logs) + length (pending errs)))).

(** The bytes the reader of the pipe gets, as text. *)
Definition merged (s : worker) : string := String.concat "" (pipe s).

(** ioutil.ReadAll(r) on the read side: everything written once the write
    side is closed; it never returns while the worker is blocked. *)
Definition read_all (sched : nat → side) (logs : chan Log) (errs : chan string)
  : option string :=
  match run (enough logs errs) sched 0 (start logs errs) with
  | Some (PipeClosed, s) => Some (merged s)
  | _ => None
  end.

(** An event in arrival order, and what the worker writes for it. *)
Definition arrival : Type := Log + string.

Definition is_sentinel (l : Log) : bool := String.eqb (Log_ l) "EOFLOG".

Definition render (ev : arrival) : string :=
  match ev with
  | inl l => if is_sentinel l then nl else format_log l
  | inr e => format_err e
  end.

Definition is_line_entry (ev : arrival) : bool :=
  match ev with inl l => negb (is_sentinel l) | inr _ => false end.
Definition is_blank_line (ev : arrival) : bool :=
  match ev with inl l => is_sentinel l | inr _ => false end.
Definition is_err_entry (ev : arrival) : bool :=
  match ev with inl _ => false | inr _ => true end.

(** What a channel variable of the worker still holds, and whether its
    closure has been or will be seen. *)
Definition rest_of {A} (c : option (chan A)) : list A :=
  match c with Some c => pending c | None => [] end.

Definition closing {A} (c : option (chan A)) : bool :=
  match c with Some c => closes c | None => true end.

(** The iterations a state still needs. *)
Definition work (s : worker) : nat :=
  (match logC s with Some c => S (length (pending c)) | None => 0 end
   + match errC s with Some c => S (length (pending c)) | None => 0 end)%nat.

(** The loop condition, negated: logC == nil && errC == nil. *)
Definition both_nil (s : worker) : bool :=
  match logC s, errC s with None, None => true | _, _ => false end.

(** [l] interleaves [l1] and [l2], keeping the order of each. *)
Inductive interleave {A} : list A → list A → list A → Prop :=
| interleave_nil : interleave [] [] []
| interleave_l x l1 l2 l : interleave l1 l2 l → interleave (x :: l1) l2 (x :: l)
| interleave_r x l1 l2 l : interleave l1 l2 l → interleave l1 (x :: l2) (x :: l).

End Merge.

(** ** Storage keys *)
Module Keys.

(** Modelled from the spec: the declarations of ObjectMeta and of its
    embedded run summary are not under src/; the fields are those the
    collector reads, all of them text but the two times and the duration,
    which is kept as the integer that int(DurationSeconds) yields. *)
Record PrMetadata (Time : Type) := {
  Name : string;
  Pipeline : string;
  Result : string;
  DurationSeconds : Z;
  StartTime : option Time;
  CompletionTime : option Time
}.
Arguments Name {Time} _.
Arguments Pipeline {Time} _.
Arguments Result {Time} _.
Arguments DurationSeconds {Time} _.
Arguments StartTime {Time} _.
Arguments CompletionTime {Time} _.

Record ObjectMeta (Time : Type) := {
  Application : string;
  ApplicationID : string;
  Cluster : string;
  ClusterID : string;
  Environment : string;
  Operator : string;
  CreationTimestamp : string;
  PipelineRun : PrMetadata Time
}.
Arguments Application {Time} _.
Arguments ApplicationID {Time} _.
Arguments Cluster {Time} _.
Arguments ClusterID {Time} _.
Arguments Environment {Time} _.
Arguments Operator {Time} _.
Arguments CreationTimestamp {Time} _.
Arguments PipelineRun {Time} _.

Section Paths.
Context {Time : Type}.

(** getPathForPr, with [timeStr] the value of time.Now().Format("200601") *)
Definition getPathForPr (timeStr : string) (metadata : ObjectMeta Time) : string :=
  timeStr +:+ "/pr/" +:+ Application metadata +:+ "-" +:+ ApplicationID metadata
    +:+ "/" +:+ Cluster metadata +:+ "-" +:+ ClusterID metadata
    +:+ "/" +:+ Name (PipelineRun metadata).

(** getPathForPrLog *)
Definition getPathForPrLog (timeStr : string) (metadata : ObjectMeta Time) : string :=
  timeStr +:+ "/pr-log/" +:+ Application metadata +:+ "-" +:+ ApplicationID metadata
    +:+ "/" +:+ Cluster metadata +:+ "-" +:+ ClusterID metadata
    +:+ "/" +:+ Name (PipelineRun metadata).

(** strconv.Itoa *)
Definition Itoa (n : Z) : string := NilZero.string_of_int (Z.to_int n).

(** resolveMetadata: the tags put on the snapshot object. *)
Definition resolveMetadata (metadata : option (ObjectMeta Time)) : gmap string string :=
  match metadata with
  | None => ∅
  | Some metadata =>
      <["creationTimestamp" := CreationTimestamp metadata]>
      (<["duration" := Itoa (DurationSeconds (PipelineRun metadata))]>
      (<["result" := Result (PipelineRun metadata)]>
      (<["pipeline" := Pipeline (PipelineRun metadata)]>
      (<["pipelineRun" := Name (PipelineRun metadata)]>
      (<["operator" := Operator metadata]>
      (<["environment" := Environment metadata]>
      (<["cluster" := Cluster metadata]>
      (<["application" := Application metadata]> ∅))))))))
  end.
End Paths.

End Keys.

(** ** Errors

    Modelled from the spec: the error packages (core/errors, pkg/errors) and
    the error types of the storage and orchestrator clients are not under
    src/; the constructors are the ones the collector builds or inspects, with
    the wrapping kept so that the original cause is preserved. *)
Module Errors.

(** The kinds of resource an error is about: herrors.Pipelinerun,
    herrors.PipelinerunLog, herrors.PipelinerunObj. *)
Inductive sourceType := Pipelinerun | PipelinerunLog | PipelinerunObj.

Inductive error :=
| HorizonErrNotFound (source : sourceType) (msg : string)
| HorizonErrGetFailed (source : sourceType) (msg : string)
| ErrParamInvalid
| ErrS3SignFailed
| ErrS3PutObjFailed
| ErrS3GetObjFailed
| ErrReadFailed
| Wrap (cause : error) (msg : string)
| WithMessagef (cause : error) (msg : string)
| AwsError (code : string) (msg : string)
| StatusError (reason : string)
| ErrorString (msg : string).

Definition NewErrNotFound := HorizonErrNotFound.
Definition NewErrGetFailed := HorizonErrGetFailed.

(** perror.Cause: the error at the bottom of the wrapping. *)
Fixpoint Cause (err : error) : error :=
  match err with
  | Wrap cause _ | WithMessagef cause _ => Cause cause
  | _ => err
  end.

(** Whether perror.Cause(err) is a HorizonErrNotFound. *)
Definition cause_is_NotFound (err : error) : bool :=
  match Cause err with
  | HorizonErrNotFound _ _ => true
  | _ => false
  end.

(** e, ok := err.(awserr.Error); e.Code() *)
Definition awserr_Code (err : error) : option string :=
  match err with
  | AwsError code _ => Some code
  | _ => None
  end.

Definition ErrCodeNoSuchKey : string := "NoSuchKey".

(** k8serrors.IsNotFound *)
Definition IsNotFound (err : error) : bool :=
  match err with
  | StatusError reason => String.eqb reason "NotFound"
  | _ => false
  end.

(** A Go result pair (value, error). *)
Inductive res (A : Type) := Val (a : A) | Fail (err : error).
Arguments Val {A} _.
Arguments Fail {A} _.

End Errors.

(** ** The collector *)
Module Collector.
Import GoSlice Merge Keys Errors.

(** _expireTimeDuration = time.Hour * 24 * 30, in nanoseconds. *)
Definition _expireTimeDuration : Z := 3600 * 1000000000 * 24 * 30.

(** The persisted record of a run (prmodels.Pipelinerun), with the fields
    the collector reads. *)
Record Pipelinerun := {
  PrObject : string;
  LogObject : string;
  CIEventID : string
}.

(** The read-path result. *)
Record Log := {
  LogBytes : option (list byte);
  LogChannel : option (chan Merge.Log);
  ErrChannel : option (chan string)
}.

Record CollectObjectResult := {
  cor_PrObject : string;
  cor_PrURL : string
}.

Record CollectLogResult := {
  clr_LogObject : string;
  clr_LogURL : string;
  clr_LogContent : string
}.

Record MetadataAndURLStruct (Time : Type) := {
  mu_URL : string;
  mu_Metadata : option (ObjectMeta Time)
}.

Record LogAndURLStruct := {
  lu_URL : string;
  lu_Content : string
}.

Record LogStruct (Time : Type) := {
  ls_Object : option (MetadataAndURLStruct Time);
  ls_Log : option LogAndURLStruct
}.

Definition NewLogStruct {Time} (prURL : string) (metadata : ObjectMeta Time)
    (logURL logContent : string) : LogStruct Time :=
  {| ls_Object := Some {| mu_URL := prURL; mu_Metadata := Some metadata |};
     ls_Log := Some {| lu_URL := logURL; lu_Content := logContent |} |}.

Record CollectResult (Time : Type) := {
  cr_Bucket : string;
  cr_LogObject : string;
  cr_PrObject : string;
  cr_Result : string;
  cr_StartTime : option Time;
  cr_CompletionTime : option Time
}.
Arguments cr_Bucket {Time} _.
Arguments cr_LogObject {Time} _.
Arguments cr_PrObject {Time} _.
Arguments cr_Result {Time} _.
Arguments cr_StartTime {Time} _.
Arguments cr_CompletionTime {Time} _.

(** The snapshot envelope. *)
Record Object (Run Time : Type) := {
  obj_Metadata : option (ObjectMeta Time);
  obj_PipelineRun : option Run
}.
Arguments obj_Metadata {Run Time} _.
Arguments obj_PipelineRun {Run Time} _.

(** A call made to a collaborator, with what it answered where the
    collector branches on it. *)
Inductive event (Run : Type) :=
| GetPipelineRunLog_call (pr : Run)
| GetPipelineRunLogByID_call (id : string)
| GetPipelineRunByID_call (id : string)
| DeletePipelineRun_call (pr : Run) (err : option error)
| GetSignedObjectURL_call (key : string) (expire : Z)
| PutObject_call (key : string) (body : list byte)
    (tags : option (gmap string string)) (err : option error)
| GetObject_call (key : string)
| GetBucket_call
| Println_call (line : string).
Arguments GetPipelineRunLog_call {Run} _.
Arguments GetPipelineRunLogByID_call {Run} _.
Arguments GetPipelineRunByID_call {Run} _.
Arguments DeletePipelineRun_call {Run} _ _.
Arguments GetSignedObjectURL_call {Run} _ _.
Arguments PutObject_call {Run} _ _ _ _.
Arguments GetObject_call {Run} _.
Arguments GetBucket_call {Run}.
Arguments Println_call {Run} _.

(** The collaborators: the orchestrator client, the object store, the
    clock, the scheduler of the merge worker's select, and the pure helpers
    that are not under src/. An answer may depend on every call made so
    far. *)
Record World (Run Time HorizonMetaData : Type) := {
  tekton_GetPipelineRunLog :
    list (event Run) → Run → res (chan Merge.Log * chan string);
  tekton_GetPipelineRunLogByID :
    list (event Run) → string → res (chan Merge.Log * chan string);
  tekton_GetPipelineRunByID : list (event Run) → string → res (option Run);
  tekton_DeletePipelineRun : list (event Run) → Run → option error;
  s3_GetSignedObjectURL : list (event Run) → string → Z → res string;
  s3_PutObject :
    list (event Run) → string → list byte → option (gmap string string) → option error;
  s3_GetObject : list (event Run) → string → res (list byte);
  s3_GetBucket : list (event Run) → string;
  time_Now_Format : list (event Run) → string;
  select_sched : list (event Run) → nat → side;
  resolveObjMetadata : Run → HorizonMetaData → ObjectMeta Time;
  json_Marshal_Object : Object Run Time → res (list byte);
  json_Marshal_LogStruct : LogStruct Time → res (list byte * list byte);
  json_Unmarshal_Object : list byte → res (option (Object Run Time));
  Error : error → string;
  growslice : nat → nat → nat
}.

(** How a call of the collector ends: it returns, it panics, or it never
    returns. *)
Inductive outcome (A : Type) := Returns (a : A) | Panics | Hangs.
Arguments Returns {A} _.
Arguments Panics {A}.
Arguments Hangs {A}.

Section Operations.
Context {Run Time HorizonMetaData : Type}.
Variable w : World Run Time HorizonMetaData.

(** A computation of the collector: it extends the trace of calls made
    so far. The calls to the debug logger and to wlog write nothing the
    collector reads back and are left out. *)
Definition M (A : Type) : Type :=
  list (event Run) → list (event Run) * outcome A.

Definition ret {A} (a : A) : M A := λ t, (t, Returns a).

Definition bind {A B} (m : M A) (k : A → M B) : M B :=
  λ t, match m t with
       | (t', Returns a) => k a t'
       | (t', Panics) => (t', Panics)
       | (t', Hangs) => (t', Hangs)
       end.

Definition panic {A} : M A := λ t, (t, Panics).

#[local] Instance M_ret : MRet M := @ret.
#[local] Instance M_bind : MBind M := λ A B k m, bind m k.

(** A call to a collaborator: the answer comes from the calls made so
    far, and the call joins the trace. *)
Definition call {A} (answer : list (event Run) → A) (ev : A → event Run) : M A :=
  λ t, let a := answer t in (t ++ [ev a], Returns a).

Definition tektonGetPipelineRunLog (pr : Run) :=
  call (λ t, tekton_GetPipelineRunLog _ _ _ w t pr) (λ _, GetPipelineRunLog_call pr).
Definition tektonGetPipelineRunLogByID (id : string) :=
  call (λ t, tekton_GetPipelineRunLogByID _ _ _ w t id)
       (λ _, GetPipelineRunLogByID_call id).
Definition tektonGetPipelineRunByID (id : string) :=
  call (λ t, tekton_GetPipelineRunByID _ _ _ w t id) (λ _, GetPipelineRunByID_call id).
Definition tektonDeletePipelineRun (pr : Run) :=
  call (λ t, tekton_DeletePipelineRun _ _ _ w t pr) (DeletePipelineRun_call pr).
Definition s3GetSignedObjectURL (key : string) (expire : Z) :=
  call (λ t, s3_GetSignedObjectURL _ _ _ w t key expire)
       (λ _, GetSignedObjectURL_call key expire).
Definition s3PutObject (key : string) (body : list byte)
    (tags : option (gmap string string)) :=
  call (λ t, s3_PutObject _ _ _ w t key body tags) (PutObject_call key body tags).
Definition s3GetObject (key : string) :=
  call (λ t, s3_GetObject _ _ _ w t key) (λ _, GetObject_call key).
Definition s3GetBucket :=
  call (λ t, s3_GetBucket _ _ _ w t) (λ _, GetBucket_call).
Definition loggerPrintln (line : string) : M unit :=
  call (λ _, ()) (λ _, Println_call line).

(** time.Now().Format("200601") *)
Definition timeNow : M string := λ t, (t, Returns (time_Now_Format _ _ _ w t)).

(** r, w := io.Pipe(); go func() { ... }(); ...; b, err := ioutil.ReadAll(r).
    The read returns what the worker wrote once the worker has closed the
    pipe, with no error (w.Close() is the end of the stream), and does
    not return while the worker is blocked. *)
Definition ReadAll (logC : chan Merge.Log) (errC : chan string) : M (res string) :=
  λ t, match read_all (select_sched _ _ _ w t) logC errC with
       | Some text => (t, Returns (Val text))
       | None => (t, Hangs)
       end.

Definition err_text (err : error) : string := Error _ _ _ w err.

(** func (c *S3Collector) collectLog *)
Definition collectLog (pr : Run) (metadata : ObjectMeta Time)
  : M (res CollectLogResult) :=
  r ← tektonGetPipelineRunLog pr;
  match r with
  | Fail err =>
      if IsNotFound err then ret (Fail (NewErrNotFound Errors.Pipelinerun ""))
      else ret (Fail (NewErrGetFailed Errors.Pipelinerun ""))
  | Val (logC, errC) =>
      timeStr ← timeNow;
      let logPath := getPathForPrLog timeStr metadata in
      r ← s3GetSignedObjectURL logPath _expireTimeDuration;
      match r with
      | Fail err => ret (Fail (Wrap ErrS3SignFailed (err_text err)))
      | Val logURL =>
          r ← ReadAll logC errC;
          match r with
          | Fail err => ret (Fail (Wrap ErrReadFailed (err_text err)))
          | Val text =>
              let b := list_byte_of_string text in
              r ← s3PutObject logPath b None;
              match r with
              | Some err => ret (Fail (Wrap ErrS3PutObjFailed (err_text err)))
              | None =>
                  ret (Val {| clr_LogObject := logPath;
                              clr_LogURL := logURL;
                              clr_LogContent := string_of_list_byte b |})
              end
          end
      end
  end.

(** func (c *S3Collector) collectObject *)
Definition collectObject (metadata : ObjectMeta Time) (pr : Run)
  : M (res CollectObjectResult) :=
  match json_Marshal_Object _ _ _ w
          {| obj_Metadata := Some metadata; obj_PipelineRun := Some pr |} with
  | Fail err => ret (Fail (Wrap ErrParamInvalid (err_text err)))
  | Val b =>
      timeStr ← timeNow;
      let prPath := getPathForPr timeStr metadata in
      r ← s3GetSignedObjectURL prPath _expireTimeDuration;
      match r with
      | Fail err => ret (Fail (Wrap ErrS3SignFailed (err_text err)))
      | Val prURL =>
          r ← s3PutObject prPath b (Some (resolveMetadata (Some metadata)));
          match r with
          | Some err => ret (Fail (Wrap ErrS3PutObjFailed (err_text err)))
          | None => ret (Val {| cor_PrObject := prPath; cor_PrURL := prURL |})
          end
      end
  end.

(** b = cutByteInMiddle(b, _limitSize, _mb, len(b)-_mb), on the slice that
    json.Marshal returned; the bytes of the result, or [None] on a panic. *)
Definition cut_audit_line (b spare : list byte) : option (list byte) :=
  let '(data, h) := alloc b spare in
  match cutByteInMiddle (growslice _ _ _ w) h data _limitSize _mb
          (Z.of_nat (len data) - _mb) with
  | Some (b, h) => Some (bytes_of h b)
  | None => None
  end.

(** func (c *S3Collector) Collect *)
Definition Collect (pr : Run) (horizonMetaData : HorizonMetaData)
  : M (res (CollectResult Time)) :=
  let metadata := resolveObjMetadata _ _ _ w pr horizonMetaData in
  r ← collectLog pr metadata;
  match r with
  | Fail err => ret (Fail err)
  | Val collectLogResult =>
      r ← collectObject metadata pr;
      match r with
      | Fail err => ret (Fail err)
      | Val collectObjectResult =>
          let logStruct :=
            NewLogStruct (cor_PrURL collectObjectResult) metadata
              (clr_LogURL collectLogResult) (clr_LogContent collectLogResult) in
          match json_Marshal_LogStruct _ _ _ w logStruct with
          | Fail err => ret (Fail (Wrap ErrParamInvalid (err_text err)))
          | Val (b, spare) =>
              match cut_audit_line b spare with
              | None => panic
              | Some b =>
                  _ ← loggerPrintln (string_of_list_byte b);
                  bucket ← s3GetBucket;
                  let collectResult :=
                    {| cr_Bucket := bucket;
                       cr_LogObject := clr_LogObject collectLogResult;
                       cr_PrObject := cor_PrObject collectObjectResult;
                       cr_Result := Result (PipelineRun metadata);
                       cr_StartTime := StartTime (PipelineRun metadata);
                       cr_CompletionTime := CompletionTime (PipelineRun metadata) |} in
                  r ← tektonDeletePipelineRun pr;
                  match r with
                  | Some err =>
                      if cause_is_NotFound err then ret (Val collectResult)
                      else ret (Fail err)
                  | None => ret (Val collectResult)
                  end
              end
          end
      end
  end.

(** func (c *S3Collector) getPipelineRunLog *)
Definition getPipelineRunLog (logObject : string) : M (res (list byte)) :=
  r ← s3GetObject logObject;
  match r with
  | Fail err =>
      match awserr_Code err with
      | Some code =>
          if String.eqb code ErrCodeNoSuchKey
          then ret (Fail (NewErrNotFound PipelinerunLog (err_text err)))
          else ret (Fail (Wrap ErrS3GetObjFailed (err_text err)))
      | None => ret (Fail (Wrap ErrS3GetObjFailed (err_text err)))
      end
  | Val b => ret (Val b)
  end.

(** func (c *S3Collector) GetPipelineRunLog *)
Definition GetPipelineRunLog (pr : Pipelinerun) : M (res Log) :=
  if negb (String.eqb (PrObject pr) "") then
    r ← getPipelineRunLog (LogObject pr);
    match r with
    | Fail err =>
        ret (Fail (WithMessagef err "failed to get pipelineRun log from s3"))
    | Val logBytes =>
        ret (Val {| LogBytes := Some logBytes; LogChannel := None; ErrChannel := None |})
    end
  else
    r ← tektonGetPipelineRunLogByID (CIEventID pr);
    match r with
    | Fail err =>
        ret (Fail (WithMessagef err "failed to get pipelineRun log from k8s"))
    | Val (logCh, errCh) =>
        ret (Val {| LogBytes := None; LogChannel := Some logCh; ErrChannel := Some errCh |})
    end.

(** func (c *S3Collector) GetPipelineRunObject; the value is the pointer
    that json.Unmarshal filled, nil for the JSON null. *)
Definition GetPipelineRunObject (object : string)
  : M (res (option (Object Run Time))) :=
  r ← s3GetObject object;
  match r with
  | Fail err =>
      match awserr_Code err with
      | Some code =>
          if String.eqb code ErrCodeNoSuchKey
          then ret (Fail (NewErrNotFound PipelinerunObj (err_text err)))
          else ret (Fail (Wrap ErrS3GetObjFailed (err_text err)))
      | None => ret (Fail (Wrap ErrS3GetObjFailed (err_text err)))
      end
  | Val b =>
      match json_Unmarshal_Object _ _ _ w b with
      | Fail err => ret (Fail (Wrap ErrParamInvalid (err_text err)))
      | Val obj => ret (Val obj)
      end
  end.

(** func (c *S3Collector) GetPipelineRun; the value is the returned
    pointer, [None] for nil. *)
Definition GetPipelineRun (pr : Pipelinerun) : M (res (option Run)) :=
  if negb (String.eqb (PrObject pr) "") then
    r ← GetPipelineRunObject (PrObject pr);
    match r with
    | Fail err => ret (Fail err)
    | Val None => panic
    | Val (Some obj) => ret (Val (obj_PipelineRun obj))
    end
  else
    r ← tektonGetPipelineRunByID (CIEventID pr);
    match r with
    | Fail err =>
        if cause_is_NotFound err then ret (Val None) else ret (Fail err)
    | Val tektonPipelineRun => ret (Val tektonPipelineRun)
    end.

End Operations.

Definition is_delete {Run} (ev : event Run) : bool :=
  match ev with DeletePipelineRun_call _ _ => true | _ => false end.

End Collector.

(** ** Sample inputs *)
Module Samples.
Import GoSlice Merge Keys Errors Collector.

(** The three line events of the merge example, the second one the
    sentinel. *)
Definition example_lines : list Merge.Log :=
  [ {| Task := "t1"; Step := "s1"; Log_ := "hello" |};
    {| Task := ""; Step := ""; Log_ := "EOFLOG" |};
    {| Task := "t1"; Step := "s2"; Log_ := "world" |} ].

(** The run "build-42" of application "shop" on cluster "prod". *)
Definition example_meta : ObjectMeta Z :=
  {| Application := "shop"; ApplicationID := "7";
     Cluster := "prod"; ClusterID := "3";
     Environment := "online"; Operator := "alice";
     CreationTimestamp := "1704067200";
     PipelineRun := {| Name := "build-42"; Pipeline := "default";
                       Result := "ok"; DurationSeconds := 61;
                       StartTime := Some 1704067200;
                       CompletionTime := Some 1704067261 |} |}.

(** The same naming fields, everything else different. *)
Definition example_meta' : ObjectMeta Z :=
  {| Application := "shop"; ApplicationID := "7";
     Cluster := "prod"; ClusterID := "3";
     Environment := "test"; Operator := "bob";
     CreationTimestamp := "1704067300";
     PipelineRun := {| Name := "build-42"; Pipeline := "other";
                       Result := "failed"; DurationSeconds := 5;
                       StartTime := None; CompletionTime := None |} |}.

(** A payload of exactly the limit, 2.5 MiB of zero bytes. *)
Definition zeros : list byte := replicate (Z.to_nat _limitSize) x00.

Definition sample_Error (err : error) : string :=
  match err with
  | AwsError code msg => code +:+ ": " +:+ msg
  | ErrorString msg => msg
  | _ => "error"
  end.

(** A world in which runs are known by their name: the run "build-42" is
    already gone from the orchestrator when its deletion is asked, the
    deletion of "stuck" times out, the store lacks the key "missing",
    refuses the key "denied" and holds a truncated document under
    "garbage". *)
Definition sample_world : World string Z unit :=
  {| tekton_GetPipelineRunLog := λ _ _, Val (Chan example_lines true, Chan ["warn"%string] true);
     tekton_GetPipelineRunLogByID := λ _ _, Val (Chan example_lines false, Chan [] false);
     tekton_GetPipelineRunByID := λ _ id,
       if String.eqb id "gone"
       then Fail (WithMessagef (HorizonErrNotFound Errors.Pipelinerun "gone") "get")
       else if String.eqb id "down" then Fail (ErrorString "connection refused")
       else Val (Some id);
     tekton_DeletePipelineRun := λ _ pr,
       if String.eqb pr "build-42"
       then Some (WithMessagef (HorizonErrNotFound Errors.Pipelinerun pr) "delete")
       else if String.eqb pr "stuck" then Some (ErrorString "timeout")
       else None;
     s3_GetSignedObjectURL := λ _ key _, Val ("https://store/" +:+ key);
     s3_PutObject := λ _ _ _ _, None;
     s3_GetObject := λ _ key,
       if String.eqb key "missing" then Fail (AwsError "NoSuchKey" "no such key")
       else if String.eqb key "denied" then Fail (AwsError "AccessDenied" "denied")
       else if String.eqb key "garbage" then Val (list_byte_of_string "{")
       else Val (list_byte_of_string "stored");
     s3_GetBucket := λ _, "horizon";
     time_Now_Format := λ _, "202401";
     select_sched := λ _ _, LogSide;
     resolveObjMetadata := λ _ _, example_meta;
     json_Marshal_Object := λ _, Val (list_byte_of_string "{}");
     json_Marshal_LogStruct := λ _, Val (list_byte_of_string "{}", []);
     json_Unmarshal_Object := λ b,
       if String.eqb (string_of_list_byte b) "{"
       then Fail (ErrorString "unexpected end of JSON input")
       else Val (Some {| obj_Metadata := None; obj_PipelineRun := Some "build-42" |});
     Error := sample_Error;
     growslice := λ _ _, 0%nat |}.

End Samples.

(** ** The environment views (core/controller/environment/models.go) *)
Module Environments.

(** type Environment struct *)
Record Environment := { Name : string; DisplayName : string }.

Section OfModels.
(** The stored record models.Environment is declared outside src/; the
    conversion reads its fields Name and DisplayName. *)
Variable ModelEnvironment : Type.
Variable model_Name : ModelEnvironment → string.
Variable model_DisplayName : ModelEnvironment → string.

(** for _, env := range envs { environments = append(environments, ...) };
    the elements are pointers, [None] is nil, and reading a field of nil is
    a run-time panic, [None] as a result. *)
Fixpoint range_envs (envs : list (option ModelEnvironment))
    (environments : list Environment) : option (list Environment) :=
  match envs with
  | [] => Some environments
  | None :: _ => None
  | Some env :: envs =>
      range_envs envs
        (environments ++ [{| Name := model_Name env;
                             DisplayName := model_DisplayName env |}])
  end.

(** func ofEnvironmentModels(envs []*models.Environment) Environments *)
Definition ofEnvironmentModels (envs : list (option ModelEnvironment))
  : option (list Environment) :=
  range_envs envs [].
End OfModels.

End Environments.

(** ** A store that keeps what it accepted *)
Module Store.
Import Errors Collector.

(** The body of the last put of [key] that the store accepted, in a trace
    of calls. *)
Fixpoint last_put {Run} (t : list (event Run)) (key : string) : option (list byte) :=
  match t with
  | [] => None
  | ev :: t =>
      match last_put t key with
      | Some body => Some body
      | None =>
          match ev with
          | PutObject_call k body _ None => if String.eqb k key then Some body else None
          | _ => None
          end
      end
  end.

(** The store answers a read with the body of the last accepted put. *)
Definition keeps_puts {Run Time HorizonMetaData}
    (w : World Run Time HorizonMetaData) : Prop :=
  ∀ t key body, last_put t key = Some body → s3_GetObject _ _ _ w t key = Val body.

(** The kinds of call, and the order in which Collect makes them. *)
Inductive call_kind :=
| KGetLog | KGetLogByID | KGetRunByID | KDelete | KSign | KPut | KGet | KBucket | KPrintln.

Definition kind_of {Run} (ev : event Run) : call_kind :=
  match ev with
  | GetPipelineRunLog_call _ => KGetLog
  | GetPipelineRunLogByID_call _ => KGetLogByID
  | GetPipelineRunByID_call _ => KGetRunByID
  | DeletePipelineRun_call _ _ => KDelete
  | GetSignedObjectURL_call _ _ => KSign
  | PutObject_call _ _ _ _ => KPut
  | GetObject_call _ => KGet
  | GetBucket_call => KBucket
  | Println_call _ => KPrintln
  end.

Definition collect_order : list call_kind :=
  [KGetLog; KSign; KPut; KSign; KPut; KPrintln; KBucket; KDelete].

(** A put that the store refused. *)
Definition is_refused_put {Run} (ev : event Run) : bool :=
  match ev with PutObject_call _ _ _ (Some _) => true | _ => false end.

(** No refused put but, possibly, the last call. *)
Fixpoint refused_only_last {Run} (tr : list (event Run)) : bool :=
  match tr with
  | [] => true
  | ev :: rest =>
      match rest with
      | [] => true
      | _ :: _ => negb (is_refused_put ev) && refused_only_last rest
      end
  end.

Definition is_println {Run} (ev : event Run) : bool :=
  match ev with Println_call _ => true | _ => false end.

Definition is_put {Run} (ev : event Run) : bool :=
  match ev with PutObject_call _ _ _ _ => true | _ => false end.

End Store.

(** ** More sample inputs *)
Module MoreSamples.
Import GoSlice Merge Keys Errors Collector Samples Store Environments.

(** The sample world over a store that keeps what it accepted, and a
    decoder that yields the envelope of the run "build-42". *)
Definition keeping_world : World string Z unit :=
  {| tekton_GetPipelineRunLog := tekton_GetPipelineRunLog _ _ _ sample_world;
     tekton_GetPipelineRunLogByID := tekton_GetPipelineRunLogByID _ _ _ sample_world;
     tekton_GetPipelineRunByID := tekton_GetPipelineRunByID _ _ _ sample_world;
     tekton_DeletePipelineRun := tekton_DeletePipelineRun _ _ _ sample_world;
     s3_GetSignedObjectURL := s3_GetSignedObjectURL _ _ _ sample_world;
     s3_PutObject := s3_PutObject _ _ _ sample_world;
     s3_GetObject := λ t key,
       match last_put t key with
       | Some body => Val body
       | None => Fail (AwsError ErrCodeNoSuchKey "no such key")
       end;
     s3_GetBucket := s3_GetBucket _ _ _ sample_world;
     time_Now_Format := time_Now_Format _ _ _ sample_world;
     select_sched := select_sched _ _ _ sample_world;
     resolveObjMetadata := resolveObjMetadata _ _ _ sample_world;
     json_Marshal_Object := json_Marshal_Object _ _ _ sample_world;
     json_Marshal_LogStruct := json_Marshal_LogStruct _ _ _ sample_world;
     json_Unmarshal_Object := λ _,
       Val (Some {| obj_Metadata := Some example_meta;
                    obj_PipelineRun := Some "build-42"%string |});
     Error := sample_Error;
     growslice := λ _ _, 0%nat |}.

(** A world whose orchestrator never closes the error channel of the run
    "build-42", has lost the run "lost" and cannot be reached for any other
    run, and whose store holds the JSON null under the key "null". *)
Definition stalled_world : World string Z unit :=
  {| tekton_GetPipelineRunLog := λ _ pr,
       if String.eqb pr "build-42" then Val (Chan example_lines true, Chan [] false)
       else if String.eqb pr "lost" then Fail (StatusError "NotFound")
       else Fail (ErrorString "unreachable");
     tekton_GetPipelineRunLogByID := tekton_GetPipelineRunLogByID _ _ _ sample_world;
     tekton_GetPipelineRunByID := tekton_GetPipelineRunByID _ _ _ sample_world;
     tekton_DeletePipelineRun := tekton_DeletePipelineRun _ _ _ sample_world;
     s3_GetSignedObjectURL := s3_GetSignedObjectURL _ _ _ sample_world;
     s3_PutObject := s3_PutObject _ _ _ sample_world;
     s3_GetObject := λ _ key,
       if String.eqb key "null" then Val (list_byte_of_string "null")
       else s3_GetObject _ _ _ sample_world [] key;
     s3_GetBucket := s3_GetBucket _ _ _ sample_world;
     time_Now_Format := time_Now_Format _ _ _ sample_world;
     select_sched := select_sched _ _ _ sample_world;
     resolveObjMetadata := resolveObjMetadata _ _ _ sample_world;
     json_Marshal_Object := json_Marshal_Object _ _ _ sample_world;
     json_Marshal_LogStruct := json_Marshal_LogStruct _ _ _ sample_world;
     json_Unmarshal_Object := λ b,
       if String.eqb (string_of_list_byte b) "null" then Val None
       else json_Unmarshal_Object _ _ _ sample_world b;
     Error := sample_Error;
     growslice := λ _ _, 0%nat |}.

(** What Collect does for the run "build-42" in the sample worlds. *)
Definition collected_text : string :=
  "[t1 : s1] hello" +:+ nl +:+ nl +:+ "[t1 : s2] world" +:+ nl +:+ "warn" +:+ nl.

Definition collected_result : CollectResult Z :=
  {| cr_Bucket := "horizon";
     cr_LogObject := "202401/pr-log/shop-7/prod-3/build-42";
     cr_PrObject := "202401/pr/shop-7/prod-3/build-42";
     cr_Result := "ok";
     cr_StartTime := Some 1704067200;
     cr_CompletionTime := Some 1704067261 |}.

Definition collected_trace : list (event string) :=
  [GetPipelineRunLog_call "build-42"%string;
   GetSignedObjectURL_call (cr_LogObject collected_result) _expireTimeDuration;
   PutObject_call (cr_LogObject collected_result)
     (list_byte_of_string collected_text) None None;
   GetSignedObjectURL_call (cr_PrObject collected_result) _expireTimeDuration;
   PutObject_call (cr_PrObject collected_result) (list_byte_of_string "{}")
     (Some (resolveMetadata (Some example_meta))) None;
   Println_call "{}"; GetBucket_call;
   DeletePipelineRun_call "build-42"%string
     (Some (WithMessagef (HorizonErrNotFound Errors.Pipelinerun "build-42") "delete"))].

(** Stored environments, as pairs of a name and a display name. *)
Definition sample_envs : list (option (string * string)) :=
  [Some ("dev", "Development"); Some ("prod", "Production")]%string.

(** A payload of ten bytes in an array of sixteen. *)
Definition ten : list byte := list_byte_of_string "abcdefghij".
Definition six_spare : list byte := list_byte_of_string "uvwxyz".

End MoreSamples.

(** ** Facts about slices and [cutByteInMiddle] *)
Section SliceFacts.
Import GoSlice.

Lemma split_at {A} (n : nat) (l : list A) :
  (n ≤ length l)%nat → ∃ l1 l2, l = l1 ++ l2 ∧ length l1 = n.
Proof.
  intros Hn. exists (take n l), (drop n l). split.
  - by rewrite take_drop.
  - rewrite length_take. lia.
Qed.

Lemma store_bytes_middle (pre old post bs : list byte) :
  length old = length bs →
  store_bytes (pre ++ old ++ post) (length pre) bs = pre ++ bs ++ post.
Proof.
  intros Hlen. unfold store_bytes.
  rewrite take_app_length. f_equal. f_equal.
  rewrite <- Hlen, <- length_app, app_assoc.
  by rewrite drop_app_length.
Qed.

Lemma window (pre mid post : list byte) (o n : nat) :
  length pre = o → length mid = n →
  take n (drop o (pre ++ mid ++ post)) = mid.
Proof.
  intros <- <-. by rewrite drop_app_length, take_app_length.
Qed.

Variable growslice : nat → nat → nat.

(** [append] within the capacity writes in place, behind the length. *)
Lemma append_in_place (h : heap) (s : slice) (a bs : list byte) :
  h !! ptr s = Some a → (len s + length bs ≤ cap s)%nat →
  append growslice h s bs =
    ({| ptr := ptr s; off := off s; len := len s + length bs; cap := cap s |},
     <[ptr s := store_bytes a (off s + len s) bs]> h).
Proof.
  intros Ha Hcap. unfold append.
  rewrite decide_True by lia. by rewrite Ha.
Qed.

(** The cut, when the marker fits between the head and the tail: the head
    and the tail are those of the payload as it was on entry. *)
Lemma cutByteInMiddle_cut (h : heap) (data : slice) (limit begin end_ : Z) :
  slice_wf h data →
  ¬ (0 < limit ∧ Z.of_nat (len data) < limit) →
  0 ≤ begin → begin + 6 ≤ end_ → end_ ≤ Z.of_nat (len data) →
  ∃ r h',
    cutByteInMiddle growslice h data limit begin end_ = Some (r, h') ∧
    bytes_of h' r =
      take (Z.to_nat begin) (bytes_of h data) ++ marker
        ++ drop (Z.to_nat end_) (bytes_of h data).
Proof.
  intros (a & Ha & Hcap & Hlen) Hlim Hb Hbe He.
  unfold cutByteInMiddle.
  pose proof (eq_refl : length marker = 6%nat) as Hmk.
  set (mk := marker) in *. clearbody mk.
  destruct data as [p o n c]; simpl in *.
  set (b := Z.to_nat begin). set (e := Z.to_nat end_).
  assert (Hb' : begin = Z.of_nat b) by lia.
  assert (He' : end_ = Z.of_nat e) by lia.
  assert (Hbe' : (b + 6 ≤ e ∧ e ≤ n)%nat) by lia.
  destruct (split_at o a) as (pre & a1 & -> & Hpre); [lia|].
  rewrite length_app in Hcap.
  destruct (split_at b a1) as (A & a2 & -> & HA); [lia|].
  rewrite length_app in Hcap.
  destruct (split_at 6 a2) as (M & a3 & -> & HM); [lia|].
  rewrite length_app in Hcap.
  destruct (split_at (e - b - 6) a3) as (B & a4 & -> & HB); [lia|].
  rewrite length_app in Hcap.
  destruct (split_at (n - e) a4) as (T & rest & -> & HT); [lia|].
  rewrite length_app in Hcap.
  unfold cutByteInMiddle, slice_to, slice_from; simpl.
  replace ((0 <? limit) && (Z.of_nat n <? limit)) with false
    by (symmetry; apply andb_false_iff; lia).
  replace ((0 <=? begin) && (begin <=? Z.of_nat c)) with true
    by (symmetry; apply andb_true_iff; lia).
  replace ((0 <=? end_) && (end_ <=? Z.of_nat n)) with true
    by (symmetry; apply andb_true_iff; lia).
  simpl. fold b e. clearbody b e. subst begin end_.
  erewrite append_in_place; [| exact Ha | simpl; lia]. simpl.
  replace (pre ++ A ++ M ++ B ++ T ++ rest)
    with ((pre ++ A) ++ M ++ (B ++ T ++ rest)) by (by rewrite <- !app_assoc).
  replace (o + b)%nat with (length (pre ++ A)) by (rewrite length_app; lia).
  rewrite store_bytes_middle by lia.
  set (tail := bytes_of _ _).
  assert (Htail : tail = T).
  { unfold tail, bytes_of; simpl. rewrite lookup_insert_eq.
    replace ((pre ++ A) ++ mk ++ B ++ T ++ rest)
      with ((pre ++ A ++ mk ++ B) ++ T ++ rest) by (by rewrite <- !app_assoc).
    apply window; [rewrite !length_app; simpl; lia | lia]. }
  rewrite Htail.
  destruct (split_at (length T) (B ++ T ++ rest)) as (X & post & HX & HXlen).
  { rewrite !length_app. lia. }
  assert (Hfits : (b + length mk + length T ≤ c)%nat) by lia.
  erewrite append_in_place;
    [| simpl; apply lookup_insert_eq | exact Hfits]. simpl.
  eexists _, _. split; [reflexivity|].
  unfold bytes_of at 1; simpl. rewrite lookup_insert_eq.
  rewrite HX.
  replace ((pre ++ A) ++ mk ++ X ++ post)
    with ((pre ++ A ++ mk) ++ X ++ post) by (by rewrite <- !app_assoc).
  replace (o + (b + length mk))%nat with (length (pre ++ A ++ mk))
    by (rewrite !length_app; lia).
  rewrite store_bytes_middle by done.
  rewrite <- !app_assoc.
  replace (pre ++ A ++ mk ++ T ++ post)
    with (pre ++ (A ++ mk ++ T) ++ post) by (by rewrite <- !app_assoc).
  rewrite window; [| done | rewrite !length_app; simpl; lia].
  unfold bytes_of; simpl. rewrite Ha.
  replace (pre ++ A ++ M ++ B ++ T ++ rest)
    with (pre ++ (A ++ M ++ B ++ T) ++ rest) by (by rewrite <- !app_assoc).
  rewrite window; [| done | rewrite !length_app; lia].
  rewrite take_app_length' by done.
  replace (A ++ M ++ B ++ T) with ((A ++ M ++ B) ++ T) by (by rewrite <- !app_assoc).
  rewrite drop_app_length' by (rewrite !length_app; lia).
  reflexivity.
Qed.

(** Below the limit the slice comes back as it is, and nothing is written. *)
Lemma cutByteInMiddle_below (h : heap) (data : slice) (limit begin end_ : Z) :
  Z.of_nat (len data) < limit →
  cutByteInMiddle growslice h data limit begin end_ = Some (data, h).
Proof.
  intros Hl. unfold cutByteInMiddle.
  replace ((0 <? limit) && (Z.of_nat (len data) <? limit)) with true; [done|].
  symmetry. apply andb_true_iff. lia.
Qed.

Lemma alloc_wf (b spare : list byte) : slice_wf (alloc b spare).2 (alloc b spare).1.
Proof.
  exists (b ++ spare). simpl. split; [apply lookup_singleton_eq|].
  rewrite length_app. lia.
Qed.

Lemma alloc_bytes (b spare : list byte) : bytes_of (alloc b spare).2 (alloc b spare).1 = b.
Proof.
  unfold bytes_of, alloc. cbn [fst snd ptr off len].
  rewrite lookup_singleton_eq, drop_0. apply take_app_length.
Qed.

Lemma limit_is_two_and_a_half_mb : 2 * _limitSize = 5 * _mb.
Proof. reflexivity. Qed.

(** The call of Collect, cutByteInMiddle(b, _limitSize, _mb, len(b)-_mb),
    on any slice. *)
Lemma cutByteInMiddle_at_call (h : heap) (data : slice) :
  slice_wf h data →
  let l := Z.of_nat (len data) in
  let payload := bytes_of h data in
  (l < _limitSize →
     cutByteInMiddle growslice h data _limitSize _mb (l - _mb) = Some (data, h)) ∧
  (_limitSize ≤ l →
     ∃ r h',
       cutByteInMiddle growslice h data _limitSize _mb (l - _mb) = Some (r, h') ∧
       bytes_of h' r =
         take (Z.to_nat _mb) payload ++ marker ++ drop (Z.to_nat (l - _mb)) payload ∧
       Z.of_nat (length (bytes_of h' r)) = _mb + 6 + _mb ∧
       Z.of_nat (length (bytes_of h' r)) = 2 * 2 ^ 20 + 6).
Proof.
  intros Hwf l payload. split.
  - intros Hl. by apply cutByteInMiddle_below.
  - intros Hl.
    assert (Hmb : _mb = 1048576) by reflexivity.
    assert (Hlim : _limitSize = 2621440) by reflexivity.
    destruct (cutByteInMiddle_cut h data _limitSize _mb (l - _mb)) as (r & h' & Hcut & Hbytes);
      [done | lia | lia | lia | lia |].
    exists r, h'. split; [done|]. split; [done|].
    subst payload.
    assert (Hpl : length (bytes_of h data) = len data).
    { destruct Hwf as (a & Ha & Hcap & Hlen). unfold bytes_of.
      rewrite Ha, length_take, length_drop. lia. }
    assert (Hlen : Z.of_nat (length (bytes_of h' r)) = _mb + 6 + _mb).
    { rewrite Hbytes, !length_app, length_take, length_drop, Hpl.
      change (length marker) with 6%nat. lia. }
    split; [done|]. rewrite Hlen, Hmb. reflexivity.
Qed.

(** Outside the arguments of Collect the two appends can meet: with the
    tail starting inside the six bytes behind the head, the marker is
    written over the tail before the tail is read. *)
Example cutByteInMiddle_overlap :
  let '(data, h) := alloc (list_byte_of_string "abcdefghij") [] in
  match cutByteInMiddle (λ _ _, 0%nat) h data 1 2 6 with
  | Some (r, h') => string_of_list_byte (bytes_of h' r) = "ab........ij"%string
  | None => False
  end.
Proof. vm_compute. reflexivity. Qed.

(** The slice expressions of the cut, with the arguments of Collect: the
    bounds hold as soon as the payload reaches the limit, and the call
    never panics. *)
Lemma cutByteInMiddle_bounds (h : heap) (data : slice) :
  slice_wf h data →
  let l := Z.of_nat (len data) in
  (¬ (0 < _limitSize ∧ l < _limitSize) →
     (0 ≤ _mb ∧ _mb ≤ l - _mb ∧ l - _mb ≤ l) ∧
     is_Some (slice_to data _mb) ∧ is_Some (slice_from data (l - _mb))) ∧
  is_Some (cutByteInMiddle growslice h data _limitSize _mb (l - _mb)).
Proof.
  intros Hwf l.
  assert (Hmb : _mb = 1048576) by reflexivity.
  assert (Hlim : _limitSize = 2621440) by reflexivity.
  split.
  - intros Hl. split; [lia|].
    destruct Hwf as (a & Ha & Hcap & Hlen).
    unfold slice_to, slice_from. fold l.
    replace ((0 <=? _mb) && (_mb <=? Z.of_nat (cap data))) with true
      by (symmetry; apply andb_true_iff; lia).
    replace ((0 <=? l - _mb) && (l - _mb <=? l)) with true
      by (symmetry; apply andb_true_iff; lia).
    split; eauto.
  - destruct (Z.lt_ge_cases l _limitSize) as [Hl|Hl].
    + rewrite cutByteInMiddle_below by done. eauto.
    + destruct (cutByteInMiddle_cut h data _limitSize _mb (l - _mb))
        as (r & h' & -> & _); [done | lia | lia | lia | lia |]. eauto.
Qed.
End SliceFacts.

(** ** Facts about the merge worker *)
Section MergeFacts.
Import Merge Samples.

Lemma interleave_nil_r {A} (l evs : list A) : interleave l [] evs → evs = l.
Proof.
  intros H. remember [] as r eqn:Hr. induction H; subst; try done.
  f_equal. by apply IHinterleave.
Qed.

Lemma interleave_length {A} (l1 l2 l : list A) :
  interleave l1 l2 l → length l = (length l1 + length l2)%nat.
Proof. induction 1; simpl; lia. Qed.

Lemma interleave_filter {A} (P : A → bool) (l1 l2 l : list A) :
  interleave l1 l2 l →
  length (filter P l) = (length (filter P l1) + length (filter P l2))%nat.
Proof.
  induction 1; [done| |].
  - rewrite !filter_cons. destruct (decide (P x)); simpl; lia.
  - rewrite !filter_cons. destruct (decide (P x)); simpl; lia.
Qed.

Lemma select_log (f : side) (s : worker) :
  select f s = Some LogSide → ∃ c, logC s = Some c ∧ ready (Some c) = true.
Proof.
  unfold select. destruct (logC s) as [c|] eqn:Hc.
  - destruct (ready (Some c)) eqn:Hr; [eauto|].
    destruct f; repeat case_match; intros; simplify_eq.
  - change (ready (@None (chan Log))) with false.
    destruct f; repeat case_match; intros; simplify_eq.
Qed.

Lemma select_err (f : side) (s : worker) :
  select f s = Some ErrSide → ∃ c, errC s = Some c ∧ ready (Some c) = true.
Proof.
  unfold select. destruct (errC s) as [c|] eqn:Hc.
  - destruct (ready (Some c)) eqn:Hr; [eauto|].
    destruct f; repeat case_match; intros; simplify_eq.
  - change (ready (@None (chan string))) with false.
    destruct f; repeat case_match; intros; simplify_eq.
Qed.

Lemma select_none (f : side) (s : worker) :
  select f s = None → ready (logC s) = false ∧ ready (errC s) = false.
Proof.
  unfold select. destruct f; repeat case_match; intros; simplify_eq; eauto.
Qed.

Lemma not_ready {A} (c : option (chan A)) :
  ready c = false → rest_of c = [] ∧ (c = None ↔ closing c = true).
Proof.
  destruct c as [[[|x l] cl]|]; simpl; intros H; simplify_eq;
    (split; [done|]); split; intros; simplify_eq; done.
Qed.

Lemma run_S (sched : nat → side) (fuel i : nat) (s : worker) :
  run (S fuel) sched i s =
    if both_nil s then Some (PipeClosed, s)
    else match select (sched i) s with
         | None => Some (BlockedForever, s)
         | Some LogSide =>
             match logC s with
             | Some c => run fuel sched (S i) (recv_log c s)
             | None => Some (BlockedForever, s)
             end
         | Some ErrSide =>
             match errC s with
             | Some c => run fuel sched (S i) (recv_err c s)
             | None => Some (BlockedForever, s)
             end
         end.
Proof. unfold both_nil. simpl. by destruct (logC s), (errC s). Qed.

(** One receive on logC: the closure is seen, or the first pending value
    is written. *)
Lemma recv_log_step (c : chan Log) (s : worker) :
  logC s = Some c → ready (Some c) = true →
  errC (recv_log c s) = errC s ∧
  S (work (recv_log c s)) = work s ∧
  closing (logC (recv_log c s)) = closes c ∧
  ∃ evs, pending c = evs ++ rest_of (logC (recv_log c s)) ∧
         pipe (recv_log c s) = pipe s ++ (render <$> (inl <$> evs)).
Proof.
  intros Hc Hr. unfold work, recv_log. rewrite Hc.
  destruct c as [[|l rest] cl]; simpl in *.
  - subst cl. split_and!; try done. exists []. simpl. by rewrite app_nil_r.
  - destruct (String.eqb (Log_ l) "EOFLOG") eqn:Hs; simpl;
      (split_and!; try done); exists [l]; simpl; unfold is_sentinel;
      by rewrite Hs.
Qed.

Lemma recv_err_step (c : chan string) (s : worker) :
  errC s = Some c → ready (Some c) = true →
  logC (recv_err c s) = logC s ∧
  S (work (recv_err c s)) = work s ∧
  closing (errC (recv_err c s)) = closes c ∧
  ∃ evs, pending c = evs ++ rest_of (errC (recv_err c s)) ∧
         pipe (recv_err c s) = pipe s ++ (render <$> (inr <$> evs)).
Proof.
  intros Hc Hr. unfold work, recv_err. rewrite Hc.
  destruct c as [[|e rest] cl]; simpl in *.
  - subst cl. split_and!; try done; try lia. exists []. simpl. by rewrite app_nil_r.
  - split_and!; try done; try lia. by exists [e].
Qed.

Lemma interleave_app_l {A} (xs l1 l2 l : list A) :
  interleave l1 l2 l → interleave (xs ++ l1) l2 (xs ++ l).
Proof. intros H. induction xs; simpl; auto using @interleave_l. Qed.

Lemma interleave_app_r {A} (xs l1 l2 l : list A) :
  interleave l1 l2 l → interleave l1 (xs ++ l2) (xs ++ l).
Proof. intros H. induction xs; simpl; auto using @interleave_r. Qed.

(** The worker, from any state and with enough iterations: it consumes
    everything both channels still hold, writes one entry per value in the
    order of arrival, sets to nil exactly the channels that close, and
    closes the pipe exactly when both are nil. *)
Lemma run_from (sched : nat → side) (fuel : nat) :
  ∀ (i : nat) (s : worker),
    (work s < fuel)%nat →
    ∃ ex s' evs,
      run fuel sched i s = Some (ex, s') ∧
      interleave (inl <$> rest_of (logC s)) (inr <$> rest_of (errC s)) evs ∧
      pipe s' = pipe s ++ (render <$> evs) ∧
      (logC s' = None ↔ closing (logC s) = true) ∧
      (errC s' = None ↔ closing (errC s) = true) ∧
      (ex = PipeClosed ↔ logC s' = None ∧ errC s' = None).
Proof.
  induction fuel as [|fuel IH]; intros i s Hw; [lia|].
  rewrite run_S. destruct (both_nil s) eqn:Hnil.
  { unfold both_nil in Hnil.
    destruct (logC s) eqn:Hl, (errC s) eqn:He; try done.
    exists PipeClosed, s, []. rewrite Hl, He, app_nil_r. simpl.
    split_and!; auto using @interleave_nil; done. }
  destruct (select (sched i) s) as [[|]|] eqn:Hsel.
  - apply select_log in Hsel as (c & Hc & Hr). rewrite Hc.
    destruct (recv_log_step c s Hc Hr) as (He & Hwk & Hcl & evs0 & Hpend & Hpipe).
    destruct (IH (S i) (recv_log c s)) as (ex & s' & evs & Hrun & Hint & Hp & Hl' & He' & Hex);
      [lia|].
    exists ex, s', ((inl <$> evs0) ++ evs).
    split; [done|]. split.
    { simpl. rewrite Hpend, fmap_app. apply interleave_app_l. by rewrite <- He. }
    split. { by rewrite Hp, Hpipe, fmap_app, app_assoc. }
    rewrite Hcl in Hl'. rewrite He in He'. done.
  - apply select_err in Hsel as (c & Hc & Hr). rewrite Hc.
    destruct (recv_err_step c s Hc Hr) as (Hl & Hwk & Hcl & evs0 & Hpend & Hpipe).
    destruct (IH (S i) (recv_err c s)) as (ex & s' & evs & Hrun & Hint & Hp & Hl' & He' & Hex);
      [lia|].
    exists ex, s', ((inr <$> evs0) ++ evs).
    split; [done|]. split.
    { simpl. rewrite Hpend, fmap_app. apply interleave_app_r. by rewrite <- Hl. }
    split. { by rewrite Hp, Hpipe, fmap_app, app_assoc. }
    rewrite Hcl in He'. rewrite Hl in Hl'. done.
  - apply select_none in Hsel as [Hl He].
    apply not_ready in Hl as [Hl1 Hl2]. apply not_ready in He as [He1 He2].
    exists BlockedForever, s, []. rewrite Hl1, He1, app_nil_r. simpl.
    split_and!; auto using @interleave_nil; try tauto; try done.
    split; [done|]. intros [Hl He]. unfold both_nil in Hnil.
    by rewrite Hl, He in Hnil.
Qed.

Lemma filter_fmap_length {A B} (f : A → B) (P : B → bool) (l : list A) :
  length (filter P (f <$> l)) = length (filter (λ x, P (f x)) l).
Proof.
  induction l as [|x l IH]; [done|].
  rewrite fmap_cons, !filter_cons. destruct (decide (P (f x))); simpl; lia.
Qed.

Lemma filter_false_length {A} (P : A → bool) (l : list A) :
  (∀ x, P x = false) → length (filter P l) = 0%nat.
Proof.
  intros HP. induction l as [|x l IH]; [done|].
  rewrite filter_cons, decide_False; [done|]. rewrite HP. exact id.
Qed.

Lemma filter_true_length {A} (P : A → bool) (l : list A) :
  (∀ x, P x = true) → length (filter P l) = length l.
Proof.
  intros HP. induction l as [|x l IH]; [done|].
  rewrite filter_cons, decide_True; [simpl; lia|]. rewrite HP. exact I.
Qed.

(** The worker started on two channels. *)
Lemma run_start (sched : nat → side) (logs : chan Log) (errs : chan string) :
  ∃ ex s evs,
    run (enough logs errs) sched 0 (start logs errs) = Some (ex, s) ∧
    interleave (inl <$> pending logs) (inr <$> pending errs) evs ∧
    pipe s = render <$> evs ∧
    (logC s = None ↔ closes logs = true) ∧
    (errC s = None ↔ closes errs = true) ∧
    (ex = PipeClosed ↔ logC s = None ∧ errC s = None).
Proof.
  destruct (run_from sched (enough logs errs) 0 (start logs errs))
    as (ex & s & evs & H); [unfold work, enough; simpl; lia|].
  exists ex, s, evs. exact H.
Qed.

(** C7: for N lines, S sentinels and M errors delivered in any order, the
    worker writes N formatted lines, S blank lines and M formatted errors
    in the order of arrival; it sets each channel to nil when that channel
    closes, whatever the other one does, and it ends by closing the pipe
    exactly when both are nil. *)
Theorem merge_worker_complete (sched : nat → side)
    (logs : list Log) (errs : list string) (cl ce : bool) :
  ∃ ex s evs,
    run (enough (Chan logs cl) (Chan errs ce)) sched 0
        (start (Chan logs cl) (Chan errs ce)) = Some (ex, s) ∧
    interleave (inl <$> logs) (inr <$> errs) evs ∧
    pipe s = render <$> evs ∧
    length (filter is_line_entry evs)
      = length (filter (λ l, negb (is_sentinel l)) logs) ∧
    length (filter is_blank_line evs) = length (filter is_sentinel logs) ∧
    length (filter is_err_entry evs) = length errs ∧
    (logC s = None ↔ cl = true) ∧
    (errC s = None ↔ ce = true) ∧
    (ex = PipeClosed ↔ logC s = None ∧ errC s = None).
Proof.
  destruct (run_start sched (Chan logs cl) (Chan errs ce))
    as (ex & s & evs & Hrun & Hint & Hpipe & Hl & He & Hex).
  simpl in *. exists ex, s, evs. split_and!; try done.
  - rewrite (interleave_filter _ _ _ _ Hint), !filter_fmap_length. simpl.
    rewrite (filter_false_length (λ _ : string, false)) by done. lia.
  - rewrite (interleave_filter _ _ _ _ Hint), !filter_fmap_length. simpl.
    rewrite (filter_false_length (λ _ : string, false)) by done. lia.
  - rewrite (interleave_filter _ _ _ _ Hint), !filter_fmap_length. simpl.
    rewrite (filter_false_length (λ _ : Log, false)) by done.
    rewrite (filter_true_length (λ _ : string, true)) by done. lia.
Qed.

(** C1, as the code has it: whatever the order of delivery, the text the
    worker writes to the pipe is the concatenation, in the order of
    arrival, of one line per event: "[task : step] text" and a newline for
    a line event (a space on each side of the colon), a lone newline for
    the sentinel, and the text and a newline for an error event; it is what
    the reader gets when both channels close. The three line events of the
    example give "[t1 : s1] hello", an empty line and "[t1 : s2] world". *)
Theorem merged_text_interleaves (sched : nat → side)
    (logs : list Log) (errs : list string) (cl ce : bool) :
  (∃ ex s evs,
     run (enough (Chan logs cl) (Chan errs ce)) sched 0
         (start (Chan logs cl) (Chan errs ce)) = Some (ex, s) ∧
     interleave (inl <$> logs) (inr <$> errs) evs ∧
     merged s = String.concat "" (render <$> evs) ∧
     (cl = true → ce = true →
        read_all sched (Chan logs cl) (Chan errs ce) = Some (merged s))) ∧
  (∀ l, render (inl l) =
          if String.eqb (Log_ l) "EOFLOG" then nl
          else "[" +:+ Task l +:+ " : " +:+ Step l +:+ "] " +:+ Log_ l +:+ nl) ∧
  (∀ e, render (inr e) = e +:+ nl) ∧
  read_all sched (Chan example_lines true) (Chan [] true)
    = Some ("[t1 : s1] hello" +:+ nl +:+ nl +:+ "[t1 : s2] world" +:+ nl).
Proof.
  assert (Hgen : ∀ logs errs cl ce, ∃ ex s evs,
     run (enough (Chan logs cl) (Chan errs ce)) sched 0
         (start (Chan logs cl) (Chan errs ce)) = Some (ex, s) ∧
     interleave (inl <$> logs) (inr <$> errs) evs ∧
     merged s = String.concat "" (render <$> evs) ∧
     (cl = true → ce = true →
        read_all sched (Chan logs cl) (Chan errs ce) = Some (merged s))).
  { clear. intros logs errs cl ce.
    destruct (run_start sched (Chan logs cl) (Chan errs ce))
      as (ex & s & evs & Hrun & Hint & Hpipe & Hl & He & Hex).
    exists ex, s, evs. split_and!; try done.
    - unfold merged. by rewrite Hpipe.
    - intros Hcl Hce. unfold read_all. rewrite Hrun.
      assert (ex = PipeClosed) as -> by (apply Hex; split; [by apply Hl | by apply He]).
      done. }
  split_and!; try done.
  destruct (Hgen example_lines [] true true) as (ex & s & evs & _ & Hint & Hm & Hread).
  rewrite Hread, Hm by done.
  apply interleave_nil_r in Hint. by subst evs.
Qed.

(** The merged text of the example is not the one with "[t1:s1]". *)
Lemma merged_text_example_differs :
  read_all (λ _, LogSide) (Chan example_lines true) (Chan [] true)
    ≠ Some ("[t1:s1] hello" +:+ nl +:+ nl +:+ "[t1:s2] world" +:+ nl).
Proof. vm_compute. discriminate. Qed.
End MergeFacts.

(** ** Facts about the storage keys *)
Section KeyFacts.
Import Keys Samples.

Lemma append_inj_prefix (p a b : string) : p +:+ a = p +:+ b → a = b.
Proof. induction p as [|c p IH]; simpl; intros H; [done|]. injection H as H. auto. Qed.

(** C3: a key is a function of the month, the kind and the five naming
    fields of the metadata alone; the snapshot key and the log key of one
    month never coincide; and the keys of the run "build-42" are the two
    expected paths. *)
Theorem storage_keys {Time : Type} (timeStr : string) (m m' : ObjectMeta Time) :
  (Application m = Application m' → ApplicationID m = ApplicationID m' →
   Cluster m = Cluster m' → ClusterID m = ClusterID m' →
   Name (PipelineRun m) = Name (PipelineRun m') →
     getPathForPr timeStr m = getPathForPr timeStr m' ∧
     getPathForPrLog timeStr m = getPathForPrLog timeStr m') ∧
  getPathForPr timeStr m ≠ getPathForPrLog timeStr m' ∧
  getPathForPr "202401" example_meta = "202401/pr/shop-7/prod-3/build-42" ∧
  getPathForPrLog "202401" example_meta = "202401/pr-log/shop-7/prod-3/build-42".
Proof.
  split_and!; try reflexivity.
  - intros Ha Hi Hc Hj Hn. unfold getPathForPr, getPathForPrLog.
    by rewrite Ha, Hi, Hc, Hj, Hn.
  - unfold getPathForPr, getPathForPrLog. intros H.
    apply append_inj_prefix in H. simpl in H. discriminate H.
Qed.

Lemma storage_keys_witness :
  (Application example_meta = Application example_meta' ∧
   ApplicationID example_meta = ApplicationID example_meta' ∧
   Cluster example_meta = Cluster example_meta' ∧
   ClusterID example_meta = ClusterID example_meta' ∧
   Name (PipelineRun example_meta) = Name (PipelineRun example_meta')) ∧
  example_meta ≠ example_meta' ∧
  getPathForPr "202401" example_meta = getPathForPr "202401" example_meta' ∧
  getPathForPrLog "202401" example_meta = getPathForPrLog "202401" example_meta'.
Proof.
  split; [by split_and!|]. split; [discriminate|].
  apply (storage_keys "202401" example_meta example_meta'); reflexivity.
Defined.
End KeyFacts.

(** ** Facts about the read path *)
Section ReadPath.
Import GoSlice Merge Keys Errors Collector.
Context {Run Time HorizonMetaData : Type}.
Variable w : World Run Time HorizonMetaData.

Ltac step :=
  unfold getPipelineRunLog, GetPipelineRunObject, GetPipelineRunLog, GetPipelineRun,
    s3GetObject, tektonGetPipelineRunLogByID, tektonGetPipelineRunByID,
    err_text, call, mbind, M_bind, bind, ret, panic; simpl.

(** getPipelineRunLog asks the store once and maps its answer. *)
Lemma getPipelineRunLog_run (key : string) (t0 : list (event Run)) :
  getPipelineRunLog w key t0 =
    (t0 ++ [GetObject_call key],
     Returns
       match s3_GetObject _ _ _ w t0 key with
       | Val b => Val b
       | Fail err =>
           if bool_decide (awserr_Code err = Some ErrCodeNoSuchKey)
           then Fail (HorizonErrNotFound PipelinerunLog (Error _ _ _ w err))
           else Fail (Wrap ErrS3GetObjFailed (Error _ _ _ w err))
       end).
Proof.
  step. destruct (s3_GetObject _ _ _ w t0 key) as [b|err]; [done|].
  destruct err; simpl; try done.
  destruct (String.eqb code ErrCodeNoSuchKey) eqn:Hc.
  - apply String.eqb_eq in Hc as ->. by rewrite bool_decide_eq_true_2.
  - apply String.eqb_neq in Hc. rewrite bool_decide_eq_false_2; [done|]. congruence.
Qed.

(** GetPipelineRunObject asks the store once, maps its error, and decodes
    what it got. *)
Lemma GetPipelineRunObject_run (key : string) (t0 : list (event Run)) :
  GetPipelineRunObject w key t0 =
    (t0 ++ [GetObject_call key],
     Returns
       match s3_GetObject _ _ _ w t0 key with
       | Val b =>
           match json_Unmarshal_Object _ _ _ w b with
           | Val obj => Val obj
           | Fail err => Fail (Wrap ErrParamInvalid (Error _ _ _ w err))
           end
       | Fail err =>
           if bool_decide (awserr_Code err = Some ErrCodeNoSuchKey)
           then Fail (HorizonErrNotFound PipelinerunObj (Error _ _ _ w err))
           else Fail (Wrap ErrS3GetObjFailed (Error _ _ _ w err))
       end).
Proof.
  step. destruct (s3_GetObject _ _ _ w t0 key) as [b|err].
  - by destruct (json_Unmarshal_Object _ _ _ w b).
  - destruct err; simpl; try done.
    destruct (String.eqb code ErrCodeNoSuchKey) eqn:Hc.
    + apply String.eqb_eq in Hc as ->. by rewrite bool_decide_eq_true_2.
    + apply String.eqb_neq in Hc. rewrite bool_decide_eq_false_2; [done|]. congruence.
Qed.

(** C9: reading the log object and reading the snapshot object fail with
    NotFound, of kind log and snapshot, exactly when the store answers with
    its missing-key error, and with the wrapped ErrS3GetObjFailed on any
    other error of the store; a snapshot that does not decode fails with
    the wrapped ErrParamInvalid. *)
Theorem read_errors (key : string) (t0 : list (event Run)) :
  let got := s3_GetObject _ _ _ w t0 key in
  let t := t0 ++ [GetObject_call key] in
  (∀ err, got = Fail err → awserr_Code err = Some ErrCodeNoSuchKey →
     getPipelineRunLog w key t0
       = (t, Returns (Fail (HorizonErrNotFound PipelinerunLog (Error _ _ _ w err)))) ∧
     GetPipelineRunObject w key t0
       = (t, Returns (Fail (HorizonErrNotFound PipelinerunObj (Error _ _ _ w err))))) ∧
  (∀ err, got = Fail err → awserr_Code err ≠ Some ErrCodeNoSuchKey →
     getPipelineRunLog w key t0
       = (t, Returns (Fail (Wrap ErrS3GetObjFailed (Error _ _ _ w err)))) ∧
     GetPipelineRunObject w key t0
       = (t, Returns (Fail (Wrap ErrS3GetObjFailed (Error _ _ _ w err))))) ∧
  (∀ t' source msg,
     getPipelineRunLog w key t0 = (t', Returns (Fail (HorizonErrNotFound source msg))) →
     source = PipelinerunLog ∧
     ∃ err, got = Fail err ∧ awserr_Code err = Some ErrCodeNoSuchKey) ∧
  (∀ t' source msg,
     GetPipelineRunObject w key t0 = (t', Returns (Fail (HorizonErrNotFound source msg))) →
     source = PipelinerunObj ∧
     ∃ err, got = Fail err ∧ awserr_Code err = Some ErrCodeNoSuchKey) ∧
  (∀ b err, got = Val b → json_Unmarshal_Object _ _ _ w b = Fail err →
     GetPipelineRunObject w key t0
       = (t, Returns (Fail (Wrap ErrParamInvalid (Error _ _ _ w err))))).
Proof.
  intros got t. subst got t.
  rewrite getPipelineRunLog_run, GetPipelineRunObject_run.
  destruct (s3_GetObject _ _ _ w t0 key) as [b|err]; split_and!.
  all: try (intros; simplify_eq; done).
  - intros t' source msg H. simplify_eq.
    destruct (json_Unmarshal_Object _ _ _ w b); simplify_eq.
  - intros b' e H1 H2. simplify_eq. by rewrite H2.
  - intros e H1 H2. simplify_eq. by rewrite bool_decide_eq_true_2.
  - intros e H1 H2. simplify_eq. by rewrite bool_decide_eq_false_2.
  - intros t' source msg H. case_bool_decide; simplify_eq. eauto.
  - intros t' source msg H. case_bool_decide; simplify_eq. eauto.
Qed.

(** C5, as the code has it: GetPipelineRunLog branches on the snapshot key
    PrObject of the run. When it is not empty, the bytes under the log key
    LogObject are read from the store and returned alone, a missing object
    being an error whose cause is NotFound of kind log; when it is empty,
    the live stream asked for CIEventID is returned as the two channels
    the orchestrator gave. *)
Theorem GetPipelineRunLog_branches (pr : Pipelinerun) (t0 : list (event Run)) :
  (PrObject pr ≠ "" →
     (∀ b, s3_GetObject _ _ _ w t0 (LogObject pr) = Val b →
        GetPipelineRunLog w pr t0 =
          (t0 ++ [GetObject_call (LogObject pr)],
           Returns (Val {| LogBytes := Some b; LogChannel := None;
                           ErrChannel := None |}))) ∧
     (∀ err, s3_GetObject _ _ _ w t0 (LogObject pr) = Fail err →
        awserr_Code err = Some ErrCodeNoSuchKey →
        ∃ e, GetPipelineRunLog w pr t0 =
               (t0 ++ [GetObject_call (LogObject pr)], Returns (Fail e)) ∧
             Cause e = HorizonErrNotFound PipelinerunLog (Error _ _ _ w err))) ∧
  (PrObject pr = "" →
     ∀ logCh errCh,
       tekton_GetPipelineRunLogByID _ _ _ w t0 (CIEventID pr) = Val (logCh, errCh) →
       GetPipelineRunLog w pr t0 =
         (t0 ++ [GetPipelineRunLogByID_call (CIEventID pr)],
          Returns (Val {| LogBytes := None; LogChannel := Some logCh;
                          ErrChannel := Some errCh |}))).
Proof.
  split.
  - intros Hpr. apply String.eqb_neq in Hpr.
    unfold GetPipelineRunLog. rewrite Hpr. simpl.
    unfold mbind, M_bind, bind. rewrite getPipelineRunLog_run.
    split.
    + intros b ->. reflexivity.
    + intros err -> Hc. rewrite bool_decide_eq_true_2 by done.
      eexists. split; reflexivity.
  - intros Hpr logCh errCh Hlive. apply String.eqb_eq in Hpr.
    unfold GetPipelineRunLog. rewrite Hpr. step. by rewrite Hlive.
Qed.

(** C6: without a snapshot key, GetPipelineRun asks the orchestrator, and
    returns nil and no error when the cause of the failure is NotFound, the
    error itself otherwise; with a snapshot key, its only call is the read
    of that key from the store. *)
Theorem GetPipelineRun_fallback (pr : Pipelinerun) (t0 : list (event Run)) :
  (PrObject pr = "" →
     ∀ err, tekton_GetPipelineRunByID _ _ _ w t0 (CIEventID pr) = Fail err →
       (cause_is_NotFound err = true →
          GetPipelineRun w pr t0 =
            (t0 ++ [GetPipelineRunByID_call (CIEventID pr)], Returns (Val None))) ∧
       (cause_is_NotFound err = false →
          GetPipelineRun w pr t0 =
            (t0 ++ [GetPipelineRunByID_call (CIEventID pr)], Returns (Fail err)))) ∧
  (PrObject pr ≠ "" →
     ∃ out, GetPipelineRun w pr t0 = (t0 ++ [GetObject_call (PrObject pr)], out)).
Proof.
  split.
  - intros Hpr err Hlive. apply String.eqb_eq in Hpr.
    unfold GetPipelineRun. rewrite Hpr. step. rewrite Hlive.
    split; intros ->; reflexivity.
  - intros Hpr. apply String.eqb_neq in Hpr.
    unfold GetPipelineRun. rewrite Hpr. simpl.
    unfold mbind, M_bind, bind. rewrite GetPipelineRunObject_run.
    repeat case_match; eexists; reflexivity.
Qed.
End ReadPath.

Section ReadPathSamples.
Import Merge Errors Collector Samples.

Lemma read_errors_witness :
  getPipelineRunLog sample_world "missing" []
    = ([GetObject_call "missing"],
       Returns (Fail (HorizonErrNotFound PipelinerunLog "NoSuchKey: no such key"))) ∧
  GetPipelineRunObject sample_world "missing" []
    = ([GetObject_call "missing"],
       Returns (Fail (HorizonErrNotFound PipelinerunObj "NoSuchKey: no such key"))).
Proof.
  exact (proj1 (read_errors sample_world "missing" []) _ eq_refl eq_refl).
Defined.

(** A run with a log key and no snapshot key: the store is not read, the
    live stream is opened. *)
Lemma GetPipelineRunLog_ignores_log_key :
  LogObject {| PrObject := ""; LogObject := "202401/pr-log/shop-7/prod-3/build-42";
               CIEventID := "ev-1" |} ≠ "" ∧
  GetPipelineRunLog sample_world
    {| PrObject := ""; LogObject := "202401/pr-log/shop-7/prod-3/build-42";
       CIEventID := "ev-1" |} []
    = ([GetPipelineRunLogByID_call "ev-1"],
       Returns (Val {| LogBytes := None;
                       LogChannel := Some (Chan example_lines false);
                       ErrChannel := Some (Chan [] false) |})).
Proof. split; [discriminate | reflexivity]. Qed.

Lemma GetPipelineRunLog_branches_witness :
  (PrObject {| PrObject := "202401/pr/shop-7/prod-3/build-42";
               LogObject := "missing"; CIEventID := "ev-1" |} ≠ "") ∧
  ∃ e,
    GetPipelineRunLog sample_world
      {| PrObject := "202401/pr/shop-7/prod-3/build-42";
         LogObject := "missing"; CIEventID := "ev-1" |} []
      = ([GetObject_call "missing"], Returns (Fail e)) ∧
    Cause e = HorizonErrNotFound PipelinerunLog "NoSuchKey: no such key".
Proof.
  split; [discriminate|].
  refine (proj2 (proj1 (GetPipelineRunLog_branches sample_world
    {| PrObject := "202401/pr/shop-7/prod-3/build-42";
       LogObject := "missing"; CIEventID := "ev-1" |} []) _) _ eq_refl eq_refl).
  discriminate.
Defined.

Lemma GetPipelineRun_fallback_witness :
  PrObject {| PrObject := ""; LogObject := ""; CIEventID := "gone" |} = "" ∧
  GetPipelineRun sample_world {| PrObject := ""; LogObject := ""; CIEventID := "gone" |} []
    = ([GetPipelineRunByID_call "gone"], Returns (Val None)).
Proof.
  split; [reflexivity|].
  exact (proj1 (proj1 (GetPipelineRun_fallback sample_world
    {| PrObject := ""; LogObject := ""; CIEventID := "gone" |} []) eq_refl _ eq_refl)
    eq_refl).
Defined.
End ReadPathSamples.

(** ** Facts about Collect *)
Section CollectFacts.
Import GoSlice Merge Keys Errors Collector.
Context {Run Time HorizonMetaData : Type}.
Variable w : World Run Time HorizonMetaData.

Ltac step :=
  unfold collectLog, collectObject, tektonGetPipelineRunLog, s3GetSignedObjectURL,
    s3PutObject, s3GetBucket, loggerPrintln, tektonDeletePipelineRun, timeNow,
    ReadAll, err_text, call, mbind, M_bind, bind, ret, panic; simpl.

Abbreviation no_delete := (Forall (λ ev : event Run, is_delete ev = false)).

(** collectLog: its calls, none of them the deletion; when it succeeds, it
    has asked for the stream, signed the log key and put the merged text
    under that key, and the store accepted it. *)
Lemma collectLog_run (pr : Run) (metadata : ObjectMeta Time) (t0 : list (event Run)) :
  ∃ tr out,
    collectLog w pr metadata t0 = (t0 ++ tr, out) ∧
    no_delete tr ∧
    ∀ r, out = Returns (Val r) →
      clr_LogObject r =
        getPathForPrLog (time_Now_Format _ _ _ w (t0 ++ [GetPipelineRunLog_call pr]))
          metadata ∧
      tr = [GetPipelineRunLog_call pr;
            GetSignedObjectURL_call (clr_LogObject r) _expireTimeDuration;
            PutObject_call (clr_LogObject r)
              (list_byte_of_string (clr_LogContent r)) None None].
Proof.
  step.
  destruct (tekton_GetPipelineRunLog _ _ _ w t0 pr) as [[logC errC]|err] eqn:Hlog.
  2:{ destruct (IsNotFound err); simpl;
        (eexists _, _; split; [reflexivity|]; split; [by repeat constructor|]);
        intros; simplify_eq. }
  simpl.
  destruct (s3_GetSignedObjectURL _ _ _ w _ _ _) as [logURL|err] eqn:Hsign; simpl.
  2:{ eexists _, _. split; [by rewrite <- !app_assoc|].
      split; [by repeat constructor|]. intros; simplify_eq. }
  destruct (read_all _ logC errC) as [text|] eqn:Hread; simpl.
  2:{ eexists _, _. split; [by rewrite <- !app_assoc|].
      split; [by repeat constructor|]. intros; simplify_eq. }
  destruct (s3_PutObject _ _ _ w _ _ _ _) as [err|] eqn:Hput; simpl.
  all: eexists _, _; (split; [by rewrite <- !app_assoc|]);
    (split; [by repeat constructor|]); intros r Hr; simplify_eq.
  simpl. rewrite string_of_list_byte_of_string. done.
Qed.

(** collectObject: likewise for the snapshot, put with its tags. *)
Lemma collectObject_run (metadata : ObjectMeta Time) (pr : Run) (t0 : list (event Run)) :
  ∃ tr out,
    collectObject w metadata pr t0 = (t0 ++ tr, out) ∧
    no_delete tr ∧
    ∀ r, out = Returns (Val r) →
      cor_PrObject r = getPathForPr (time_Now_Format _ _ _ w t0) metadata ∧
      ∃ body,
        tr = [GetSignedObjectURL_call (cor_PrObject r) _expireTimeDuration;
              PutObject_call (cor_PrObject r) body
                (Some (resolveMetadata (Some metadata))) None].
Proof.
  step.
  destruct (json_Marshal_Object _ _ _ w _) as [b|err] eqn:Hjson; simpl.
  2:{ exists [], (Returns (Fail (Wrap ErrParamInvalid (Error _ _ _ w err)))).
      rewrite app_nil_r. split; [done|]. split; [constructor|]. intros; simplify_eq. }
  destruct (s3_GetSignedObjectURL _ _ _ w _ _ _) as [prURL|err] eqn:Hsign; simpl.
  2:{ eexists _, _. split; [by rewrite <- ?app_assoc|].
      split; [by repeat constructor|]. intros; simplify_eq. }
  destruct (s3_PutObject _ _ _ w _ _ _ _) as [err|] eqn:Hput; simpl.
  all: eexists _, _; (split; [by rewrite <- !app_assoc|]);
    (split; [by repeat constructor|]); intros r Hr; simplify_eq.
  simpl. eauto.
Qed.

Lemma cut_audit_line_total (b spare : list byte) : is_Some (cut_audit_line w b spare).
Proof.
  unfold cut_audit_line.
  pose proof (cutByteInMiddle_bounds (growslice _ _ _ w) _ _ (alloc_wf b spare)) as [_ [[r h] Hcut]].
  destruct (alloc b spare) as [data h0]. simpl in Hcut. rewrite Hcut. eauto.
Qed.

(** C2: with the arguments of the call in Collect, a payload shorter than
    the limit of 2.5 MiB comes back unchanged, and a payload of at least
    the limit comes back as its first MiB, the marker of six dots and its
    last MiB, 2*2^20 + 6 bytes whatever its length was; so is the audit
    line of Collect cut. *)
Theorem cutByteInMiddle_truncates (h : heap) (data : slice) :
  slice_wf h data →
  let l := Z.of_nat (len data) in
  let payload := bytes_of h data in
  (l < _limitSize →
     cutByteInMiddle (growslice _ _ _ w) h data _limitSize _mb (l - _mb)
       = Some (data, h)) ∧
  (_limitSize ≤ l →
     ∃ r h',
       cutByteInMiddle (growslice _ _ _ w) h data _limitSize _mb (l - _mb)
         = Some (r, h') ∧
       bytes_of h' r =
         take (Z.to_nat _mb) payload ++ marker ++ drop (Z.to_nat (l - _mb)) payload ∧
       Z.of_nat (length (bytes_of h' r)) = _mb + 6 + _mb ∧
       Z.of_nat (length (bytes_of h' r)) = 2 * 2 ^ 20 + 6) ∧
  (∀ b spare : list byte,
     cut_audit_line w b spare =
       Some (if bool_decide (Z.of_nat (length b) < _limitSize) then b
             else take (Z.to_nat _mb) b ++ marker
                    ++ drop (Z.to_nat (Z.of_nat (length b) - _mb)) b)).
Proof.
  intros Hwf l payload.
  destruct (cutByteInMiddle_at_call (growslice _ _ _ w) h data Hwf) as [H1 H2].
  split; [exact H1|]. split; [exact H2|].
  intros b spare. unfold cut_audit_line.
  pose proof (cutByteInMiddle_at_call (growslice _ _ _ w) _ _ (alloc_wf b spare))
    as [Hlt Hge].
  pose proof (alloc_bytes b spare) as Hb.
  destruct (alloc b spare) as [d h0] eqn:Ha.
  assert (Hlen : len d = length b) by (by injection Ha as <- _).
  simpl in Hlt, Hge, Hb.
  case_bool_decide as Hl.
  - rewrite Hlt by lia. by rewrite Hb.
  - destruct Hge as (r & h' & -> & Hr & _); [lia|]. by rewrite Hr, Hb, Hlen.
Qed.

(** C10: with the arguments of Collect, once the payload reaches the limit
    the bounds of both slice expressions hold, 0 <= begin <= end <= len,
    and the expressions are defined; the cut never panics, on any slice and
    so on the audit line of any Collect. *)
Theorem cutByteInMiddle_in_bounds (h : heap) (data : slice) :
  slice_wf h data →
  let l := Z.of_nat (len data) in
  (¬ (0 < _limitSize ∧ l < _limitSize) →
     (0 ≤ _mb ∧ _mb ≤ l - _mb ∧ l - _mb ≤ l) ∧
     is_Some (slice_to data _mb) ∧ is_Some (slice_from data (l - _mb))) ∧
  is_Some (cutByteInMiddle (growslice _ _ _ w) h data _limitSize _mb (l - _mb)) ∧
  (∀ b spare, is_Some (cut_audit_line w b spare)).
Proof.
  intros Hwf l.
  destruct (cutByteInMiddle_bounds (growslice _ _ _ w) h data Hwf) as [H1 H2].
  split; [exact H1|]. split; [exact H2|]. apply cut_audit_line_total.
Qed.

Lemma no_delete_no_split (l pre post : list (event Run)) (pr : Run) (d : option error) :
  no_delete l → l ≠ pre ++ DeletePipelineRun_call pr d :: post.
Proof.
  intros Hl ->. apply Forall_app in Hl as [_ Hl].
  apply Forall_cons in Hl as [Hl _]. done.
Qed.

Lemma delete_last (l pre post : list (event Run)) (pr pr' : Run) (d d' : option error) :
  no_delete l →
  l ++ [DeletePipelineRun_call pr d] = pre ++ DeletePipelineRun_call pr' d' :: post →
  pre = l.
Proof.
  intros Hl. revert pre. induction Hl as [|x l Hx Hl IH]; intros pre H.
  - destruct pre as [|y pre]; [done|]. simpl in H. simplify_eq.
    by destruct pre.
  - destruct pre as [|y pre]; simpl in H.
    + injection H as -> _. done.
    + injection H as -> H. f_equal. by apply IH.
Qed.

(** C8: in every run of Collect, whatever the collaborators answer, a
    deletion request in the trace comes after a put of the log object and
    a put of the snapshot object that the store both accepted. *)
Theorem Collect_deletes_after_persisting (pr : Run) (horizonMetaData : HorizonMetaData)
    (t0 : list (event Run)) :
  let metadata := resolveObjMetadata _ _ _ w pr horizonMetaData in
  ∃ tr out,
    Collect w pr horizonMetaData t0 = (t0 ++ tr, out) ∧
    ∀ pre pr' d post,
      tr = pre ++ DeletePipelineRun_call pr' d :: post →
      ∃ ts1 body1 ts2 body2,
        PutObject_call (getPathForPrLog ts1 metadata) body1 None None ∈ pre ∧
        PutObject_call (getPathForPr ts2 metadata) body2
          (Some (resolveMetadata (Some metadata))) None ∈ pre.
Proof.
  intros metadata. unfold Collect. fold metadata.
  unfold mbind, M_bind, bind.
  destruct (collectLog_run pr metadata t0) as (tr1 & out1 & -> & Hnd1 & Hok1).
  destruct out1 as [[clr|err]| |].
  2-4: eexists _, _; (split; [reflexivity|]); intros pre pr' d post H;
       by apply no_delete_no_split in H.
  destruct (Hok1 clr eq_refl) as (Hkey1 & ->). clear Hok1.
  match goal with
  | |- context [collectObject w metadata pr ?t] =>
      destruct (collectObject_run metadata pr t) as (tr2 & out2 & -> & Hnd2 & Hok2)
  end.
  destruct out2 as [[cor|err]| |].
  2-4: eexists _, _; (split; [by rewrite <- app_assoc|]); intros pre pr' d post H;
       apply no_delete_no_split in H; [done|]; apply Forall_app; by split.
  destruct (Hok2 cor eq_refl) as (Hkey2 & body2 & ->). clear Hok2.
  destruct (json_Marshal_LogStruct _ _ _ w _) as [[b spare]|err].
  2:{ eexists _, _. split; [by rewrite <- app_assoc|]. intros pre pr' d post H.
      apply no_delete_no_split in H; [done|]. apply Forall_app; by split. }
  destruct (cut_audit_line_total b spare) as [audit ->].
  step.
  destruct (tekton_DeletePipelineRun _ _ _ w _ pr) as [err|] eqn:Hd;
    [destruct (cause_is_NotFound err)|].
  all: eexists _, _; (split; [by rewrite <- !app_assoc|]).
  all: intros pre pr' d' post H; simpl in H.
  all: apply (delete_last [_; _; _; _; _; _; _]) in H; [|by repeat constructor].
  all: subst pre; rewrite Hkey1, Hkey2; eexists _, _, _, _; split;
    [ do 2 apply list_elem_of_further; apply list_elem_of_here
    | do 4 apply list_elem_of_further; apply list_elem_of_here ].
Qed.

(** C4: once the log and the snapshot are persisted and the audit line is
    written, Collect asks for the deletion. If the orchestrator answers
    with an error whose cause is NotFound, Collect returns the same
    CollectResult as after a successful deletion, and no error; on any
    other error it returns that error, with both objects already put and
    the audit line already written. *)
Theorem Collect_after_persisting (pr : Run) (horizonMetaData : HorizonMetaData)
    (t0 t1 t2 : list (event Run)) (clr : CollectLogResult) (cor : CollectObjectResult)
    (b spare : list byte) :
  let metadata := resolveObjMetadata _ _ _ w pr horizonMetaData in
  collectLog w pr metadata t0 = (t1, Returns (Val clr)) →
  collectObject w metadata pr t1 = (t2, Returns (Val cor)) →
  json_Marshal_LogStruct _ _ _ w
    (NewLogStruct (cor_PrURL cor) metadata (clr_LogURL clr) (clr_LogContent clr))
    = Val (b, spare) →
  ∃ audit,
    cut_audit_line w b spare = Some audit ∧
    let line := Println_call (string_of_list_byte audit) in
    let t3 := t2 ++ [line; GetBucket_call] in
    let collectResult :=
      {| cr_Bucket := s3_GetBucket _ _ _ w (t2 ++ [line]);
         cr_LogObject := clr_LogObject clr;
         cr_PrObject := cor_PrObject cor;
         cr_Result := Result (PipelineRun metadata);
         cr_StartTime := StartTime (PipelineRun metadata);
         cr_CompletionTime := CompletionTime (PipelineRun metadata) |} in
    let deleted := tekton_DeletePipelineRun _ _ _ w t3 pr in
    let t4 := t3 ++ [DeletePipelineRun_call pr deleted] in
    (∃ body1 body2 tags,
       PutObject_call (clr_LogObject clr) body1 None None ∈ t2 ∧
       PutObject_call (cor_PrObject cor) body2 tags None ∈ t2) ∧
    line ∈ t3 ∧
    (deleted = None →
       Collect w pr horizonMetaData t0 = (t4, Returns (Val collectResult))) ∧
    (∀ err, deleted = Some err → cause_is_NotFound err = true →
       Collect w pr horizonMetaData t0 = (t4, Returns (Val collectResult))) ∧
    (∀ err, deleted = Some err → cause_is_NotFound err = false →
       Collect w pr horizonMetaData t0 = (t4, Returns (Fail err))).
Proof.
  intros metadata Hlog Hobj Hjson.
  destruct (cut_audit_line_total b spare) as [audit Hcut].
  exists audit. split; [done|]. intros line t3 collectResult deleted t4.
  assert (Hrun : Collect w pr horizonMetaData t0 =
                 (t4, Returns match deleted with
                              | Some err => if cause_is_NotFound err
                                            then Val collectResult else Fail err
                              | None => Val collectResult
                              end)).
  { unfold Collect. fold metadata. unfold mbind, M_bind, bind.
    rewrite Hlog, Hobj, Hjson, Hcut. step. fold line.
    subst t4 deleted t3 collectResult.
    replace ((t2 ++ [line]) ++ [GetBucket_call]) with (t2 ++ [line; GetBucket_call])
      by (by rewrite <- app_assoc).
    destruct (tekton_DeletePipelineRun _ _ _ w _ pr) as [err|];
      [destruct (cause_is_NotFound err)|]; reflexivity. }
  split_and!.
  - destruct (collectLog_run pr metadata t0) as (tr1 & out1 & Heq1 & _ & Hok1).
    rewrite Hlog in Heq1. injection Heq1 as -> <-.
    destruct (Hok1 clr eq_refl) as (_ & ->).
    destruct (collectObject_run metadata pr (t0 ++ [GetPipelineRunLog_call pr;
      GetSignedObjectURL_call (clr_LogObject clr) _expireTimeDuration;
      PutObject_call (clr_LogObject clr) (list_byte_of_string (clr_LogContent clr))
        None None])) as (tr2 & out2 & Heq2 & _ & Hok2).
    rewrite Hobj in Heq2. injection Heq2 as -> <-.
    destruct (Hok2 cor eq_refl) as (_ & body2 & ->).
    eexists _, body2, _. split.
    + apply elem_of_app. left. apply elem_of_app. right.
      do 2 apply list_elem_of_further. apply list_elem_of_here.
    + apply elem_of_app. right. apply list_elem_of_further, list_elem_of_here.
  - apply elem_of_app. right. apply list_elem_of_here.
  - intros Hd. by rewrite Hrun, Hd.
  - intros err Hd Hnf. by rewrite Hrun, Hd, Hnf.
  - intros err Hd Hnf. by rewrite Hrun, Hd, Hnf.
Qed.
End CollectFacts.

(** ** The theorems at the sample inputs *)
Section SampleRuns.
Import GoSlice Merge Keys Errors Collector Samples.

Lemma zeros_len : Z.of_nat (len (alloc zeros []).1) = _limitSize.
Proof.
  unfold alloc, zeros. cbn [fst len]. rewrite length_replicate.
  apply Z2Nat.id. discriminate.
Qed.

(** The payload of exactly 2.5 MiB is cut down to 2*2^20 + 6 bytes. *)
Lemma cutByteInMiddle_truncates_witness :
  slice_wf (alloc zeros []).2 (alloc zeros []).1 ∧
  ∃ r h',
    cutByteInMiddle (growslice _ _ _ sample_world) (alloc zeros []).2 (alloc zeros []).1
      _limitSize _mb (_limitSize - _mb) = Some (r, h') ∧
    Z.of_nat (length (bytes_of h' r)) = 2 * 2 ^ 20 + 6.
Proof.
  split; [apply alloc_wf|].
  destruct (cutByteInMiddle_truncates sample_world _ _ (alloc_wf zeros []))
    as (_ & Hcut & _).
  rewrite zeros_len in Hcut.
  destruct (Hcut (Z.le_refl _)) as (r & h' & Hr & _ & _ & Hlen).
  exists r, h'. split; [exact Hr | exact Hlen].
Defined.

Lemma cutByteInMiddle_in_bounds_witness :
  slice_wf (alloc zeros []).2 (alloc zeros []).1 ∧
  (0 ≤ _mb ∧ _mb ≤ _limitSize - _mb ∧ _limitSize - _mb ≤ _limitSize) ∧
  is_Some (slice_to (alloc zeros []).1 _mb) ∧
  is_Some (slice_from (alloc zeros []).1 (_limitSize - _mb)) ∧
  is_Some (cut_audit_line sample_world zeros []).
Proof.
  split; [apply alloc_wf|].
  destruct (cutByteInMiddle_in_bounds sample_world _ _ (alloc_wf zeros []))
    as (Hb & _ & Hall).
  rewrite zeros_len in Hb.
  destruct Hb as (H1 & H2 & H3); [intros [_ H]; exact (Z.lt_irrefl _ H)|].
  split; [exact H1|]. split; [exact H2|]. split; [exact H3|]. apply Hall.
Defined.

(** The run "build-42" is already gone when its deletion is asked: the
    result is returned; the deletion of "stuck" times out: the error is
    returned. *)
Lemma Collect_after_persisting_witness :
  (∃ t, Collect sample_world "build-42" () [] =
          (t, Returns (Val {| cr_Bucket := "horizon";
                              cr_LogObject := "202401/pr-log/shop-7/prod-3/build-42";
                              cr_PrObject := "202401/pr/shop-7/prod-3/build-42";
                              cr_Result := "ok";
                              cr_StartTime := Some 1704067200;
                              cr_CompletionTime := Some 1704067261 |}))) ∧
  (∃ t, Collect sample_world "stuck" () [] = (t, Returns (Fail (ErrorString "timeout")))).
Proof.
  pose (clr := {| clr_LogObject := "202401/pr-log/shop-7/prod-3/build-42";
                  clr_LogURL := "https://store/202401/pr-log/shop-7/prod-3/build-42";
                  clr_LogContent := "[t1 : s1] hello" +:+ nl +:+ nl
                                    +:+ "[t1 : s2] world" +:+ nl +:+ "warn" +:+ nl |}).
  pose (cor := {| cor_PrObject := "202401/pr/shop-7/prod-3/build-42";
                  cor_PrURL := "https://store/202401/pr/shop-7/prod-3/build-42" |}).
  pose (t1 := λ pr : string,
          [GetPipelineRunLog_call pr;
           GetSignedObjectURL_call (clr_LogObject clr) _expireTimeDuration;
           PutObject_call (clr_LogObject clr)
             (list_byte_of_string (clr_LogContent clr)) None None]).
  pose (t2 := λ pr : string,
          t1 pr ++
          [GetSignedObjectURL_call (cor_PrObject cor) _expireTimeDuration;
           PutObject_call (cor_PrObject cor) (list_byte_of_string "{}")
             (Some (resolveMetadata (Some example_meta))) None]).
  split.
  - destruct (Collect_after_persisting sample_world "build-42" () []
                (t1 "build-42") (t2 "build-42") clr cor (list_byte_of_string "{}") [])
      as (audit & Hcut & _ & _ & _ & Hgone & _);
      [vm_compute; reflexivity ..|].
    eexists. apply (Hgone _ eq_refl eq_refl).
  - destruct (Collect_after_persisting sample_world "stuck" () []
                (t1 "stuck") (t2 "stuck") clr cor (list_byte_of_string "{}") [])
      as (audit & Hcut & _ & _ & _ & _ & Hfail);
      [vm_compute; reflexivity ..|].
    eexists. apply (Hfail _ eq_refl eq_refl).
Defined.
End SampleRuns.

(** ** More about slices and [cutByteInMiddle], at any arguments *)
Section MoreSliceFacts.
Import GoSlice.
Variable growslice : nat → nat → nat.

Lemma wf_bytes_length (h : heap) (s : slice) :
  slice_wf h s → length (bytes_of h s) = len s.
Proof.
  intros (a & Ha & Hcap & Hlen). unfold bytes_of.
  rewrite Ha, length_take, length_drop. lia.
Qed.

Lemma store_bytes_length (a bs : list byte) (i : nat) :
  (i + length bs ≤ length a)%nat → length (store_bytes a i bs) = length a.
Proof.
  intros Hi. unfold store_bytes.
  rewrite !length_app, length_take, length_drop. lia.
Qed.

Lemma store_bytes_before (a bs : list byte) (i k : nat) :
  (k ≤ i)%nat → (i ≤ length a)%nat → take k (store_bytes a i bs) = take k a.
Proof.
  intros Hk Hi. unfold store_bytes.
  rewrite take_app_le by (rewrite length_take; lia).
  rewrite take_take. f_equal. lia.
Qed.

Lemma store_bytes_after (a bs : list byte) (i k : nat) :
  (i + length bs ≤ k)%nat → (i + length bs ≤ length a)%nat →
  drop k (store_bytes a i bs) = drop k a.
Proof.
  intros Hk Hi. unfold store_bytes.
  rewrite app_assoc, drop_app_ge by (rewrite length_app, length_take; lia).
  rewrite length_app, length_take, drop_drop. f_equal. lia.
Qed.

Lemma store_bytes_at (a bs : list byte) (i : nat) :
  (i + length bs ≤ length a)%nat →
  take (length bs) (drop i (store_bytes a i bs)) = bs.
Proof.
  intros Hi. unfold store_bytes.
  rewrite drop_app_length' by (rewrite length_take; lia).
  by rewrite take_app_length.
Qed.

(** What [append] does to the slice it extends: the result is well formed
    and holds the old bytes followed by the new ones. *)
Lemma append_spec (h : heap) (s : slice) (bs : list byte) :
  slice_wf h s →
  slice_wf (append growslice h s bs).2 (append growslice h s bs).1 ∧
  bytes_of (append growslice h s bs).2 (append growslice h s bs).1
    = bytes_of h s ++ bs.
Proof.
  intros (a & Ha & Hcap & Hlen). unfold append.
  destruct (decide _) as [Hfit|Hfit]; rewrite ?Ha; simpl.
  - split.
    + eexists. simpl. rewrite lookup_insert_eq. split; [done|].
      rewrite store_bytes_length by lia. lia.
    + unfold bytes_of. simpl. rewrite lookup_insert_eq, Ha.
      rewrite <- (take_take_drop _ (len s) (length bs)). f_equal.
      * rewrite take_drop_commute, store_bytes_before by lia.
        by rewrite <- take_drop_commute.
      * rewrite drop_drop. apply store_bytes_at. lia.
  - split.
    + eexists. simpl. rewrite lookup_insert_eq. split; [done|].
      rewrite !length_app, length_replicate.
      assert (length (bytes_of h s) = len s) as ->
        by (apply wf_bytes_length; exists a; done).
      lia.
    + unfold bytes_of at 1. simpl. rewrite lookup_insert_eq, drop_0.
      assert (length (bytes_of h s) = len s) as Hl
        by (apply wf_bytes_length; exists a; done).
      rewrite app_assoc, take_app_length'; [done|].
      rewrite length_app. lia.
Qed.

(** What [append] does to another slice: it stays well formed. *)
Lemma append_keeps_wf (h : heap) (s s2 : slice) (bs : list byte) :
  slice_wf h s → slice_wf h s2 → slice_wf (append growslice h s bs).2 s2.
Proof.
  intros (a & Ha & Hcap & Hlen) (a2 & Ha2 & Hcap2 & Hlen2). unfold append.
  destruct (decide _) as [Hfit|Hfit]; rewrite ?Ha; simpl.
  - destruct (decide (ptr s = ptr s2)) as [Heq|Hne].
    + exists (store_bytes a (off s + len s) bs).
      rewrite <- Heq, lookup_insert_eq. split; [done|].
      rewrite store_bytes_length by lia.
      rewrite <- Heq, Ha in Ha2. by simplify_eq.
    + exists a2. by rewrite lookup_insert_ne.
  - exists a2. rewrite lookup_insert_ne; [done|].
    intros Heq. assert (ptr s2 ∈ dom h) as Hin by (apply elem_of_dom; eauto).
    rewrite <- Heq in Hin. by apply is_fresh in Hin.
Qed.

(** X1: the cut panics exactly when the payload is not below the limit and
    a bound is out of range: begin outside [0, cap] or end outside [0, len]. *)
Theorem cutByteInMiddle_panics_iff (h : heap) (data : slice) (limit begin end_ : Z) :
  cutByteInMiddle growslice h data limit begin end_ = None ↔
    ¬ (0 < limit ∧ Z.of_nat (len data) < limit) ∧
    ¬ ((0 ≤ begin ∧ begin ≤ Z.of_nat (cap data)) ∧
       (0 ≤ end_ ∧ end_ ≤ Z.of_nat (len data))).
Proof.
  unfold cutByteInMiddle, slice_to, slice_from.
  destruct ((0 <? limit) && (Z.of_nat (len data) <? limit)) eqn:Hlim.
  { apply andb_true_iff in Hlim. split; [done|]. intros [H _]. lia. }
  apply andb_false_iff in Hlim.
  destruct ((0 <=? begin) && (begin <=? Z.of_nat (cap data))) eqn:Hb; simpl.
  - apply andb_true_iff in Hb.
    destruct ((0 <=? end_) && (end_ <=? Z.of_nat (len data))) eqn:He; simpl.
    + apply andb_true_iff in He. repeat case_match. split; [done|].
      intros [_ Hout]. lia.
    + apply andb_false_iff in He. split; [|done]. intros _. lia.
  - apply andb_false_iff in Hb. split; [|done]. intros _. lia.
Qed.

(** X2: whenever the cut is made, the result is begin + 6 + (len - end)
    bytes long and starts with data[:begin] as it was on entry, followed by
    the marker, whether or not the tail was written over. *)
Theorem cutByteInMiddle_shape (h : heap) (data : slice) (limit begin end_ : Z) :
  slice_wf h data →
  ¬ (0 < limit ∧ Z.of_nat (len data) < limit) →
  0 ≤ begin ∧ begin ≤ Z.of_nat (cap data) →
  0 ≤ end_ ∧ end_ ≤ Z.of_nat (len data) →
  ∃ b1 r h',
    slice_to data begin = Some b1 ∧
    cutByteInMiddle growslice h data limit begin end_ = Some (r, h') ∧
    slice_wf h' r ∧
    Z.of_nat (length (bytes_of h' r)) = begin + 6 + (Z.of_nat (len data) - end_) ∧
    take (Z.to_nat begin + 6) (bytes_of h' r) = bytes_of h b1 ++ marker.
Proof.
  intros Hwf Hlim Hb He.
  assert (Hwf' := Hwf). destruct Hwf' as (a & Ha & Hcap & Hlen).
  unfold cutByteInMiddle, slice_to, slice_from.
  replace ((0 <? limit) && (Z.of_nat (len data) <? limit)) with false
    by (symmetry; apply andb_false_iff; lia).
  replace ((0 <=? begin) && (begin <=? Z.of_nat (cap data))) with true
    by (symmetry; apply andb_true_iff; lia).
  replace ((0 <=? end_) && (end_ <=? Z.of_nat (len data))) with true
    by (symmetry; apply andb_true_iff; lia).
  simpl.
  set (b1 := {| ptr := ptr data; off := off data; len := Z.to_nat begin;
                cap := cap data |}).
  set (b2 := {| ptr := ptr data; off := (off data + Z.to_nat end_)%nat;
                len := (len data - Z.to_nat end_)%nat;
                cap := (cap data - Z.to_nat end_)%nat |}).
  assert (Hwf1 : slice_wf h b1) by (exists a; simpl; split_and!; [done|lia|lia]).
  assert (Hwf2 : slice_wf h b2) by (exists a; simpl; split_and!; [done|lia|lia]).
  pose proof (append_spec h b1 marker Hwf1) as [Hwfr1 Hbytes1].
  pose proof (append_keeps_wf h b1 b2 marker Hwf1 Hwf2) as Hwf2'.
  destruct (append growslice h b1 marker) as [r1 h1]. simpl in *.
  pose proof (append_spec h1 r1 (bytes_of h1 b2) Hwfr1) as [Hwfr Hbytes].
  destruct (append growslice h1 r1 (bytes_of h1 b2)) as [r h2]. simpl in *.
  exists b1, r, h2. split_and!; try done.
  - rewrite Hbytes, Hbytes1, !length_app.
    rewrite (wf_bytes_length h b1 Hwf1), (wf_bytes_length h1 b2 Hwf2').
    change (length marker) with 6%nat. simpl. lia.
  - rewrite Hbytes, Hbytes1. apply take_app_length'.
    rewrite length_app, (wf_bytes_length h b1 Hwf1). done.
Qed.

(** X3: when the marker fits between the head and the tail, the cut is made
    inside the payload's own array: the result starts where the payload
    starts, it is the head, the marker and the tail of the payload as it was
    on entry, and the payload itself now reads as the result followed by
    what it held behind it; no other array changes. *)
Theorem cutByteInMiddle_in_place (h : heap) (data : slice) (limit begin end_ : Z) :
  slice_wf h data →
  ¬ (0 < limit ∧ Z.of_nat (len data) < limit) →
  0 ≤ begin → begin + 6 ≤ end_ → end_ ≤ Z.of_nat (len data) →
  ∃ r h',
    cutByteInMiddle growslice h data limit begin end_ = Some (r, h') ∧
    ptr r = ptr data ∧ off r = off data ∧
    bytes_of h' r =
      take (Z.to_nat begin) (bytes_of h data) ++ marker
        ++ drop (Z.to_nat end_) (bytes_of h data) ∧
    bytes_of h' data = bytes_of h' r ++ drop (len r) (bytes_of h data) ∧
    (∀ p, p ≠ ptr data → h' !! p = h !! p).
Proof.
  intros Hwf Hlim Hb Hbe He.
  destruct (cutByteInMiddle_cut growslice h data limit begin end_)
    as (r & h' & Hcut & Hbytes); [done..|].
  exists r, h'. split; [done|].
  assert (Hwf' := Hwf). destruct Hwf' as (a & Ha & Hcap & Hlen).
  revert Hcut. unfold cutByteInMiddle, slice_to, slice_from.
  pose proof (eq_refl : length marker = 6%nat) as Hmk.
  set (mk := marker) in *. clearbody mk.
  replace ((0 <? limit) && (Z.of_nat (len data) <? limit)) with false
    by (symmetry; apply andb_false_iff; lia).
  replace ((0 <=? begin) && (begin <=? Z.of_nat (cap data))) with true
    by (symmetry; apply andb_true_iff; lia).
  replace ((0 <=? end_) && (end_ <=? Z.of_nat (len data))) with true
    by (symmetry; apply andb_true_iff; lia).
  simpl.
  erewrite append_in_place; [| exact Ha | simpl; lia]. simpl.
  set (a1 := store_bytes a (off data + Z.to_nat begin) mk).
  assert (Hla1 : length a1 = length a) by (apply store_bytes_length; lia).
  assert (Ha1 : ∀ k, (off data + Z.to_nat begin + length mk ≤ k)%nat →
                     drop k a1 = drop k a)
    by (intros; apply store_bytes_after; lia).
  clearbody a1.
  set (tail := bytes_of _ _).
  assert (Htl : length tail = (len data - Z.to_nat end_)%nat).
  { unfold tail, bytes_of. simpl. rewrite lookup_insert_eq.
    rewrite length_take, length_drop. lia. }
  clearbody tail.
  erewrite append_in_place; [| simpl; apply lookup_insert_eq | simpl; lia]. simpl.
  intros Hcut. injection Hcut as <- <-. simpl.
  split; [done|]. split; [done|]. split; [exact Hbytes|]. clear Hbytes. split.
  - unfold bytes_of. simpl. rewrite !lookup_insert_eq, Ha.
    set (n := (Z.to_nat begin + length mk + length tail)%nat).
    set (a2 := store_bytes a1 _ tail).
    assert (Hn : (n ≤ len data)%nat) by (unfold n; lia).
    replace (len data) with (n + (len data - n))%nat at 1 by lia.
    rewrite <- take_take_drop. f_equal.
    rewrite drop_drop.
    unfold a2. rewrite store_bytes_after by (fold n; lia).
    rewrite Ha1 by (unfold n; lia).
    rewrite <- drop_drop, take_drop_commute. do 2 f_equal. lia.
  - intros p Hp. by rewrite !lookup_insert_ne.
Qed.
End MoreSliceFacts.

(** ** More about Collect *)
Section MoreCollectFacts.
Import GoSlice Merge Keys Errors Collector Store.
Context {Run Time HorizonMetaData : Type}.
Variable w : World Run Time HorizonMetaData.

Ltac unfold_collect :=
  unfold Collect, collectLog, collectObject, tektonGetPipelineRunLog,
    s3GetSignedObjectURL, s3PutObject, s3GetBucket, loggerPrintln,
    tektonDeletePipelineRun, timeNow, ReadAll, err_text, call, mbind, M_bind,
    bind, ret, panic.

Lemma string_of_list_byte_length (l : list byte) :
  String.length (string_of_list_byte l) = length l.
Proof. induction l as [|b l IH]; simpl; [done|]. by f_equal. Qed.

(** The audit line of Collect, as a function of the serialized record. *)
Lemma cut_audit_line_eq (b spare : list byte) :
  cut_audit_line w b spare =
    Some (if bool_decide (Z.of_nat (length b) < _limitSize) then b
          else take (Z.to_nat _mb) b ++ marker
                 ++ drop (Z.to_nat (Z.of_nat (length b) - _mb)) b).
Proof.
  unfold cut_audit_line.
  pose proof (cutByteInMiddle_at_call (growslice _ _ _ w) _ _ (alloc_wf b spare))
    as [Hlt Hge].
  pose proof (alloc_bytes b spare) as Hb.
  destruct (alloc b spare) as [d h0] eqn:Ha.
  assert (Hlen : len d = length b) by (by injection Ha as <- _).
  simpl in Hlt, Hge, Hb.
  case_bool_decide as Hl.
  - rewrite Hlt by lia. by rewrite Hb.
  - destruct Hge as (r & h' & -> & Hr & _); [lia|]. by rewrite Hr, Hb, Hlen.
Qed.

(** A run of Collect that returns a result, taken apart. *)
Lemma Collect_returns_inv (pr : Run) (horizonMetaData : HorizonMetaData)
    (t0 t : list (event Run)) (cr : CollectResult Time) :
  Collect w pr horizonMetaData t0 = (t, Returns (Val cr)) →
  let m := resolveObjMetadata _ _ _ w pr horizonMetaData in
  let e1 := GetPipelineRunLog_call pr in
  let logPath := getPathForPrLog (time_Now_Format _ _ _ w (t0 ++ [e1])) m in
  let e2 := GetSignedObjectURL_call logPath _expireTimeDuration in
  ∃ logC errC logURL text,
    tekton_GetPipelineRunLog _ _ _ w t0 pr = Val (logC, errC) ∧
    s3_GetSignedObjectURL _ _ _ w (t0 ++ [e1]) logPath _expireTimeDuration = Val logURL ∧
    read_all (select_sched _ _ _ w (t0 ++ [e1; e2])) logC errC = Some text ∧
    let e3 := PutObject_call logPath (list_byte_of_string text) None None in
    let prPath := getPathForPr (time_Now_Format _ _ _ w (t0 ++ [e1; e2; e3])) m in
    let e4 := GetSignedObjectURL_call prPath _expireTimeDuration in
    ∃ body prURL b spare audit,
      json_Marshal_Object _ _ _ w {| obj_Metadata := Some m; obj_PipelineRun := Some pr |}
        = Val body ∧
      s3_GetSignedObjectURL _ _ _ w (t0 ++ [e1; e2; e3]) prPath _expireTimeDuration
        = Val prURL ∧
      json_Marshal_LogStruct _ _ _ w (NewLogStruct prURL m logURL text) = Val (b, spare) ∧
      cut_audit_line w b spare = Some audit ∧
      let e5 := PutObject_call prPath body (Some (resolveMetadata (Some m))) None in
      let e6 := Println_call (string_of_list_byte audit) in
      let d := tekton_DeletePipelineRun _ _ _ w
                 (t0 ++ [e1; e2; e3; e4; e5; e6; GetBucket_call]) pr in
      t = t0 ++ [e1; e2; e3; e4; e5; e6; GetBucket_call; DeletePipelineRun_call pr d] ∧
      (d = None ∨ ∃ err, d = Some err ∧ cause_is_NotFound err = true) ∧
      cr = {| cr_Bucket := s3_GetBucket _ _ _ w (t0 ++ [e1; e2; e3; e4; e5; e6]);
              cr_LogObject := logPath;
              cr_PrObject := prPath;
              cr_Result := Result (PipelineRun m);
              cr_StartTime := StartTime (PipelineRun m);
              cr_CompletionTime := CompletionTime (PipelineRun m) |}.
Proof.
  intros H m e1 logPath e2. revert H. unfold_collect. fold m. simpl.
  fold e1.
  destruct (tekton_GetPipelineRunLog _ _ _ w t0 pr) as [[logC errC]|err] eqn:Hlog;
    [|destruct (IsNotFound err); intros; simplify_eq].
  simpl. fold logPath.
  destruct (s3_GetSignedObjectURL _ _ _ w _ logPath _) as [logURL|err] eqn:Hsign;
    [|intros; simplify_eq].
  simpl. fold e2. rewrite <- ?app_assoc. simpl.
  destruct (read_all _ logC errC) as [text|] eqn:Hread; [|intros; simplify_eq].
  simpl. rewrite string_of_list_byte_of_string. rewrite <- ?app_assoc. simpl.
  destruct (s3_PutObject _ _ _ w _ logPath _ None) as [err|] eqn:Hput;
    [intros; simplify_eq|].
  simpl. rewrite <- ?app_assoc. simpl.
  destruct (json_Marshal_Object _ _ _ w _) as [body|err] eqn:Hjson;
    [|intros; simplify_eq].
  simpl. rewrite <- ?app_assoc. simpl.
  set (e3 := PutObject_call logPath (list_byte_of_string text) None None).
  set (prPath := getPathForPr _ m).
  destruct (s3_GetSignedObjectURL _ _ _ w _ prPath _) as [prURL|err] eqn:Hsign2;
    [|intros; simplify_eq].
  simpl. rewrite <- ?app_assoc. simpl.
  destruct (s3_PutObject _ _ _ w _ prPath _ _) as [err|] eqn:Hput2;
    [intros; simplify_eq|].
  simpl. rewrite <- ?app_assoc. simpl.
  destruct (json_Marshal_LogStruct _ _ _ w _) as [[b spare]|err] eqn:Hjson2;
    [|intros; simplify_eq].
  destruct (cut_audit_line w b spare) as [audit|] eqn:Hcut; [|intros; simplify_eq].
  simpl. rewrite <- ?app_assoc. simpl.
  intros H.
  exists logC, errC, logURL, text. split_and!; try done.
  exists body, prURL, b, spare, audit. split_and!; try done.
  - destruct (tekton_DeletePipelineRun _ _ _ w _ pr) as [err|];
      [destruct (cause_is_NotFound err)|]; by simplify_eq.
  - destruct (tekton_DeletePipelineRun _ _ _ w _ pr) as [err|] eqn:Hd;
      [destruct (cause_is_NotFound err) eqn:Hnf|]; simplify_eq; eauto.
  - destruct (tekton_DeletePipelineRun _ _ _ w _ pr) as [err|];
      [destruct (cause_is_NotFound err)|]; by simplify_eq.
Qed.

Lemma cut_audit_line_length (b spare audit : list byte) :
  cut_audit_line w b spare = Some audit → Z.of_nat (length audit) < _limitSize.
Proof.
  rewrite cut_audit_line_eq. intros H. injection H as <-.
  assert (Hmb : _mb = 1048576) by reflexivity.
  assert (Hlim : _limitSize = 2621440) by reflexivity.
  case_bool_decide as Hl; [done|].
  rewrite length_app. simpl. rewrite length_take, length_drop. lia.
Qed.

(** X4: the audit line that Collect is about to write is always shorter
    than the limit of 2.5 MiB, and cutting it once more changes nothing. *)
Theorem audit_line_bounded (b spare audit : list byte) :
  cut_audit_line w b spare = Some audit →
  Z.of_nat (length audit) < _limitSize ∧
  Z.of_nat (String.length (string_of_list_byte audit)) < _limitSize ∧
  ∀ spare', cut_audit_line w audit spare' = Some audit.
Proof.
  intros H. pose proof (cut_audit_line_length _ _ _ H) as Hlen.
  split; [done|]. split; [by rewrite string_of_list_byte_length|].
  intros spare'. rewrite cut_audit_line_eq. by rewrite bool_decide_eq_true_2.
Qed.

Lemma refused_only_last_spec (tr pre post : list (event Run)) (ev : event Run) :
  refused_only_last tr = true → tr = pre ++ ev :: post →
  is_refused_put ev = true → post = [].
Proof.
  revert pre. induction tr as [|x tr IH]; intros pre Hok Heq Href.
  - by destruct pre.
  - destruct pre as [|y pre]; simpl in Heq; simplify_eq.
    + destruct post as [|z post]; [done|]. simpl in Hok.
      rewrite Href in Hok. done.
    + simpl in Hok. destruct (pre ++ ev :: post) as [|z rest] eqn:Hrest.
      { by destruct pre. }
      apply andb_true_iff in Hok as [_ Hok]. eapply IH; [exact Hok | | done].
      symmetry. exact Hrest.
Qed.

(** X5: whatever the collaborators answer and however it ends, Collect
    makes its calls in one order: stream, sign, put (log), sign, put
    (snapshot), audit line, bucket, deletion; a failure only cuts the
    sequence short. A refused put is the last call made, and every audit
    line written is shorter than the limit. *)
Theorem Collect_call_order (pr : Run) (horizonMetaData : HorizonMetaData)
    (t0 t tr : list (event Run)) (out : outcome (res (CollectResult Time))) :
  Collect w pr horizonMetaData t0 = (t, out) →
  t = t0 ++ tr →
  kind_of <$> tr `prefix_of` collect_order ∧
  (∀ pre ev post, tr = pre ++ ev :: post → is_refused_put ev = true → post = []) ∧
  (∀ line, Println_call line ∈ tr → Z.of_nat (String.length line) < _limitSize).
Proof.
  intros Hrun Ht. subst t. revert Hrun. unfold_collect. simpl.
  repeat case_match; intros Hrun; simplify_eq;
    try match goal with
    | H : _ = t0 ++ tr |- _ =>
        rewrite <- ?app_assoc in H; apply app_inv_head in H; subst tr
    end; simpl.
  all: split; [by eexists|].
  all: split;
    [ intros pre ev post Heq Href;
      by eapply (refused_only_last_spec _ pre post ev); [|exact Heq|]
    | intros line Hin;
      repeat (apply elem_of_cons in Hin as [Hin|Hin]; simplify_eq);
      try (by apply elem_of_nil in Hin);
      rewrite string_of_list_byte_length; by eapply cut_audit_line_length ].
Qed.

(** X6: a Collect that returns a result has made exactly eight calls: each
    key was signed, for thirty days, before its object was put; both puts
    were accepted, the log without tags and the snapshot with the tags of
    the metadata; the keys of the result are the keys that were put, its
    bucket is the one the store named, and the deletion succeeded or found
    the run already gone. *)
Theorem Collect_success_calls (pr : Run) (horizonMetaData : HorizonMetaData)
    (t0 t : list (event Run)) (cr : CollectResult Time) :
  Collect w pr horizonMetaData t0 = (t, Returns (Val cr)) →
  let m := resolveObjMetadata _ _ _ w pr horizonMetaData in
  ∃ text body line d,
    t = t0 ++ [GetPipelineRunLog_call pr;
               GetSignedObjectURL_call (cr_LogObject cr) (30 * 24 * 3600 * 10 ^ 9);
               PutObject_call (cr_LogObject cr) (list_byte_of_string text) None None;
               GetSignedObjectURL_call (cr_PrObject cr) (30 * 24 * 3600 * 10 ^ 9);
               PutObject_call (cr_PrObject cr) body
                 (Some (resolveMetadata (Some m))) None;
               Println_call line; GetBucket_call;
               DeletePipelineRun_call pr d] ∧
    json_Marshal_Object _ _ _ w {| obj_Metadata := Some m; obj_PipelineRun := Some pr |}
      = Val body ∧
    (d = None ∨ ∃ err, d = Some err ∧ cause_is_NotFound err = true) ∧
    cr_Bucket cr = s3_GetBucket _ _ _ w (take (length t0 + 6) t) ∧
    cr_Result cr = Result (PipelineRun m) ∧
    cr_StartTime cr = StartTime (PipelineRun m) ∧
    cr_CompletionTime cr = CompletionTime (PipelineRun m).
Proof.
  intros H m.
  destruct (Collect_returns_inv pr horizonMetaData t0 t cr H)
    as (logC & errC & logURL & text & Hlog & Hsign & Hread
        & body & prURL & b & spare & audit & Hjson & Hsign2 & Hjson2 & Hcut
        & Ht & Hd & Hcr).
  fold m in Hjson, Ht, Hcr. subst cr. simpl.
  eexists text, body, _, _. split; [exact Ht|]. split; [exact Hjson|].
  split; [exact Hd|]. split; [|done].
  rewrite Ht. f_equal.
  rewrite take_app_add'; [|done]. reflexivity.
Qed.

Lemma read_all_None_iff (sched : nat → side) (logC : chan Merge.Log) (errC : chan string) :
  read_all sched logC errC = None ↔ closes logC = false ∨ closes errC = false.
Proof.
  unfold read_all.
  destruct (run_start sched logC errC)
    as (ex & s & evs & -> & _ & _ & Hl & He & Hex).
  destruct ex.
  - split; [done|]. intros Hc.
    destruct Hex as [Hex _]. destruct (Hex eq_refl) as [Hl' He'].
    apply Hl in Hl'. apply He in He'. destruct Hc; congruence.
  - split; [|done]. intros _.
    destruct (closes logC) eqn:Hcl; [|by left].
    destruct (closes errC) eqn:Hce; [|by right].
    destruct Hex as [_ Hex]. discriminate Hex.
    split; [by apply Hl | by apply He].
Qed.

(** X7: Collect never returns exactly when the orchestrator gave the two
    channels, the log key was signed, and one of the channels is never
    closed; it has then made two calls, and nothing was put, written or
    deleted. *)
Theorem Collect_hangs_iff (pr : Run) (horizonMetaData : HorizonMetaData)
    (t0 t : list (event Run)) :
  let m := resolveObjMetadata _ _ _ w pr horizonMetaData in
  let e1 := GetPipelineRunLog_call pr in
  let logPath := getPathForPrLog (time_Now_Format _ _ _ w (t0 ++ [e1])) m in
  Collect w pr horizonMetaData t0 = (t, Hangs) ↔
    ∃ logC errC logURL,
      tekton_GetPipelineRunLog _ _ _ w t0 pr = Val (logC, errC) ∧
      s3_GetSignedObjectURL _ _ _ w (t0 ++ [e1]) logPath _expireTimeDuration
        = Val logURL ∧
      (closes logC = false ∨ closes errC = false) ∧
      t = t0 ++ [e1; GetSignedObjectURL_call logPath _expireTimeDuration].
Proof.
  intros m e1 logPath. split.
  - unfold_collect. fold m. simpl. fold e1.
    destruct (tekton_GetPipelineRunLog _ _ _ w t0 pr) as [[logC errC]|err] eqn:Hlog;
      [|destruct (IsNotFound err); intros; simplify_eq].
    simpl. fold logPath.
    destruct (s3_GetSignedObjectURL _ _ _ w _ logPath _) as [logURL|err] eqn:Hsign;
      [|intros; simplify_eq].
    simpl.
    destruct (read_all _ logC errC) as [text|] eqn:Hread.
    + simpl. repeat case_match; intros; simplify_eq.
    + simpl. intros Hrun. simplify_eq.
      exists logC, errC, logURL. split_and!; try done.
      * by eapply read_all_None_iff.
      * by rewrite <- app_assoc.
  - intros (logC & errC & logURL & Hlog & Hsign & Hc & ->).
    unfold_collect. fold m. simpl. fold e1. rewrite Hlog. simpl.
    fold logPath. rewrite Hsign. simpl.
    apply (read_all_None_iff (select_sched _ _ _ w
      ((t0 ++ [e1]) ++ [GetSignedObjectURL_call logPath _expireTimeDuration])))
      in Hc.
    rewrite Hc. simpl. by rewrite <- app_assoc.
Qed.

(** X8: when the orchestrator fails to give the log stream, collectLog
    makes no other call and returns NotFound for the run if the failure is
    the cluster's not-found status, GetFailed otherwise, in both cases with
    an empty message; Collect returns the same and makes no other call. *)
Theorem collectLog_orchestrator_errors (pr : Run) (horizonMetaData : HorizonMetaData)
    (t0 : list (event Run)) (err : error) :
  tekton_GetPipelineRunLog _ _ _ w t0 pr = Fail err →
  let m := resolveObjMetadata _ _ _ w pr horizonMetaData in
  let failure :=
    if IsNotFound err then HorizonErrNotFound Errors.Pipelinerun ""
    else HorizonErrGetFailed Errors.Pipelinerun "" in
  collectLog w pr m t0 = (t0 ++ [GetPipelineRunLog_call pr], Returns (Fail failure)) ∧
  Collect w pr horizonMetaData t0
    = (t0 ++ [GetPipelineRunLog_call pr], Returns (Fail failure)) ∧
  cause_is_NotFound failure = IsNotFound err.
Proof.
  intros Hlog m failure. subst failure.
  unfold_collect. fold m. simpl. rewrite Hlog.
  by destruct (IsNotFound err).
Qed.
End MoreCollectFacts.

(** ** Reading back what was collected *)
Section ReadBack.
Import GoSlice Merge Keys Errors Collector Store.
Context {Run Time HorizonMetaData : Type}.
Variable w : World Run Time HorizonMetaData.

Lemma last_put_app (t t' : list (event Run)) (key : string) :
  last_put (t ++ t') key =
    match last_put t' key with Some body => Some body | None => last_put t key end.
Proof.
  induction t as [|ev t IH]; simpl.
  - by destruct (last_put t' key).
  - rewrite IH. by destruct (last_put t' key).
Qed.

Lemma append_length (s1 s2 : string) :
  String.length (s1 +:+ s2) = (String.length s1 + String.length s2)%nat.
Proof. induction s1 as [|c s1 IH]; simpl; [done|]. by rewrite IH. Qed.

Lemma append_eq_split (s1 s2 a b : string) :
  s1 +:+ a = s2 +:+ b → (String.length s1 ≤ String.length s2)%nat →
  ∃ u, s2 = s1 +:+ u ∧ a = u +:+ b.
Proof.
  revert s2. induction s1 as [|c s1 IH]; intros s2 Heq Hlen.
  - exists s2. by simpl in *.
  - destruct s2 as [|c2 s2]; simpl in *; [lia|].
    injection Heq as -> Heq.
    destruct (IH s2 Heq) as (u & -> & ->); [lia|]. by exists u.
Qed.

(** The two keys of a run differ, whatever the clock showed for each. *)
Lemma paths_differ (ts ts' : string) (m : ObjectMeta Time) :
  getPathForPrLog ts m ≠ getPathForPr ts' m.
Proof.
  unfold getPathForPrLog, getPathForPr.
  set (x := Application m +:+ _). intros Heq.
  assert (Hlen : (String.length ts + 4 = String.length ts')%nat).
  { apply (f_equal String.length) in Heq.
    rewrite !append_length in Heq. simpl in Heq. lia. }
  destruct (append_eq_split ts ts' _ _ Heq) as (u & -> & Hu); [lia|].
  rewrite append_length in Hlen.
  destruct u as [|c1 [|c2 [|c3 [|c4 [|c5 u]]]]]; simpl in Hlen; try lia.
  simpl in Hu. injection Hu as _ _ _ _ Hu. discriminate Hu.
Qed.

Lemma getPathForPr_not_empty (ts : string) (m : ObjectMeta Time) :
  getPathForPr ts m ≠ "".
Proof. unfold getPathForPr. by destruct ts. Qed.

(** X9: over a store that keeps what it accepted, and with a decoder that
    inverts the encoder on the envelope, GetPipelineRun on the keys of a
    returned CollectResult reads the snapshot and returns the very run that
    was collected, without asking the orchestrator. *)
Theorem collected_run_reads_back (pr : Run) (horizonMetaData : HorizonMetaData)
    (t0 t : list (event Run)) (cr : CollectResult Time) (id : string) :
  keeps_puts w →
  (∀ body,
     json_Marshal_Object _ _ _ w
       {| obj_Metadata := Some (resolveObjMetadata _ _ _ w pr horizonMetaData);
          obj_PipelineRun := Some pr |} = Val body →
     json_Unmarshal_Object _ _ _ w body =
       Val (Some {| obj_Metadata := Some (resolveObjMetadata _ _ _ w pr horizonMetaData);
                    obj_PipelineRun := Some pr |})) →
  Collect w pr horizonMetaData t0 = (t, Returns (Val cr)) →
  GetPipelineRun w {| PrObject := cr_PrObject cr; LogObject := cr_LogObject cr;
                      CIEventID := id |} t
    = (t ++ [GetObject_call (cr_PrObject cr)], Returns (Val (Some pr))).
Proof.
  intros Hstore Hjson H.
  destruct (Collect_returns_inv w pr horizonMetaData t0 t cr H)
    as (logC & errC & logURL & text & Hlog & Hsign & Hread
        & body & prURL & b & spare & audit & Hbody & Hsign2 & Hjson2 & Hcut
        & Ht & Hd & Hcr).
  unfold GetPipelineRun. simpl.
  assert (Hne : cr_PrObject cr ≠ "") by (subst cr; apply getPathForPr_not_empty).
  apply String.eqb_neq in Hne. rewrite Hne. simpl.
  unfold mbind, M_bind, bind. rewrite GetPipelineRunObject_run.
  rewrite (Hstore t (cr_PrObject cr) body).
  - rewrite (Hjson body Hbody). reflexivity.
  - rewrite Ht, last_put_app. subst cr. simpl. by rewrite String.eqb_refl.
Qed.

(** X10: over such a store, GetPipelineRunLog on the keys of a returned
    CollectResult returns, as bytes alone, the merged text that Collect put
    under the log key. *)
Theorem collected_log_reads_back (pr : Run) (horizonMetaData : HorizonMetaData)
    (t0 t : list (event Run)) (cr : CollectResult Time) (id : string) :
  keeps_puts w →
  Collect w pr horizonMetaData t0 = (t, Returns (Val cr)) →
  ∃ text,
    PutObject_call (cr_LogObject cr) (list_byte_of_string text) None None ∈ t ∧
    GetPipelineRunLog w {| PrObject := cr_PrObject cr; LogObject := cr_LogObject cr;
                           CIEventID := id |} t
      = (t ++ [GetObject_call (cr_LogObject cr)],
         Returns (Val {| LogBytes := Some (list_byte_of_string text);
                         LogChannel := None; ErrChannel := None |})).
Proof.
  intros Hstore H.
  destruct (Collect_returns_inv w pr horizonMetaData t0 t cr H)
    as (logC & errC & logURL & text & Hlog & Hsign & Hread
        & body & prURL & b & spare & audit & Hbody & Hsign2 & Hjson2 & Hcut
        & Ht & Hd & Hcr).
  exists text. split.
  - rewrite Ht. subst cr. simpl. apply elem_of_app. right.
    do 2 apply list_elem_of_further. apply list_elem_of_here.
  - unfold GetPipelineRunLog. simpl.
    assert (Hne : cr_PrObject cr ≠ "") by (subst cr; apply getPathForPr_not_empty).
    apply String.eqb_neq in Hne. rewrite Hne. simpl.
    unfold mbind, M_bind, bind. rewrite getPipelineRunLog_run.
    rewrite (Hstore t (cr_LogObject cr) (list_byte_of_string text)); [done|].
    rewrite Ht, last_put_app. subst cr. simpl.
    rewrite String.eqb_refl.
    match goal with
    | |- context [String.eqb ?a ?b] =>
        assert (String.eqb a b = false) as ->; [|done]
    end.
    apply String.eqb_neq. intros Heq. symmetry in Heq. by apply paths_differ in Heq.
Qed.

(** X11: with a snapshot key, GetPipelineRun never falls back: a missing
    object is the error NotFound of kind snapshot, not nil; a document that
    does not decode is the wrapped ErrParamInvalid; a decoded envelope gives
    its run; and the JSON null, which decodes to a nil envelope without an
    error, makes the read of its field panic. *)
Theorem GetPipelineRun_persisted (pr : Pipelinerun) (t0 : list (event Run)) :
  PrObject pr ≠ "" →
  let t := t0 ++ [GetObject_call (PrObject pr)] in
  (∀ err, s3_GetObject _ _ _ w t0 (PrObject pr) = Fail err →
     awserr_Code err = Some ErrCodeNoSuchKey →
     GetPipelineRun w pr t0 =
       (t, Returns (Fail (HorizonErrNotFound PipelinerunObj (Error _ _ _ w err))))) ∧
  (∀ b err, s3_GetObject _ _ _ w t0 (PrObject pr) = Val b →
     json_Unmarshal_Object _ _ _ w b = Fail err →
     GetPipelineRun w pr t0 =
       (t, Returns (Fail (Wrap ErrParamInvalid (Error _ _ _ w err))))) ∧
  (∀ b obj, s3_GetObject _ _ _ w t0 (PrObject pr) = Val b →
     json_Unmarshal_Object _ _ _ w b = Val (Some obj) →
     GetPipelineRun w pr t0 = (t, Returns (Val (obj_PipelineRun obj)))) ∧
  (∀ b, s3_GetObject _ _ _ w t0 (PrObject pr) = Val b →
     json_Unmarshal_Object _ _ _ w b = Val None →
     GetPipelineRun w pr t0 = (t, Panics)).
Proof.
  intros Hpr t. apply String.eqb_neq in Hpr.
  unfold GetPipelineRun. rewrite Hpr. simpl.
  unfold mbind, M_bind, bind. rewrite GetPipelineRunObject_run.
  split_and!.
  - intros err -> Hc. by rewrite bool_decide_eq_true_2.
  - intros b err -> ->. done.
  - intros b obj -> ->. done.
  - intros b -> ->. done.
Qed.

(** X12: the errors of GetPipelineRunLog keep their cause under the message
    they are wrapped in: a store failure other than a missing key has the
    cause ErrS3GetObjFailed, and a failure of the orchestrator keeps its own
    cause, so that testing the result for NotFound is testing the
    orchestrator's error. *)
Theorem GetPipelineRunLog_error_causes (pr : Pipelinerun) (t0 : list (event Run)) :
  (PrObject pr ≠ "" →
     ∀ err, s3_GetObject _ _ _ w t0 (LogObject pr) = Fail err →
       awserr_Code err ≠ Some ErrCodeNoSuchKey →
       ∃ e, GetPipelineRunLog w pr t0 =
              (t0 ++ [GetObject_call (LogObject pr)], Returns (Fail e)) ∧
            Cause e = ErrS3GetObjFailed ∧ cause_is_NotFound e = false) ∧
  (PrObject pr = "" →
     ∀ err, tekton_GetPipelineRunLogByID _ _ _ w t0 (CIEventID pr) = Fail err →
       ∃ e, GetPipelineRunLog w pr t0 =
              (t0 ++ [GetPipelineRunLogByID_call (CIEventID pr)], Returns (Fail e)) ∧
            Cause e = Cause err ∧ cause_is_NotFound e = cause_is_NotFound err).
Proof.
  split.
  - intros Hpr err Hget Hc. apply String.eqb_neq in Hpr.
    unfold GetPipelineRunLog. rewrite Hpr. simpl.
    unfold mbind, M_bind, bind. rewrite getPipelineRunLog_run, Hget.
    rewrite bool_decide_eq_false_2 by done. eexists. split; [reflexivity|]. done.
  - intros Hpr err Hlive. apply String.eqb_eq in Hpr.
    unfold GetPipelineRunLog. rewrite Hpr.
    unfold tektonGetPipelineRunLogByID, call, mbind, M_bind, bind, ret. simpl.
    rewrite Hlive. eexists. split; [reflexivity|]. done.
Qed.
End ReadBack.

(** ** More about the merge worker, the tags and the environment views *)
Section MoreMergeFacts.
Import Merge.

Lemma interleave_nil_l {A} (l evs : list A) : interleave [] l evs → evs = l.
Proof.
  intros H. remember [] as r eqn:Hr. induction H; subst; try done.
  f_equal. by apply IHinterleave.
Qed.

(** X13: when one of the two sources delivers nothing and both close, the
    merged text does not depend on the order in which the select serves the
    channels: it is the lines of the other source, rendered in their
    order. *)
Theorem merge_single_source (sched : nat → side)
    (logs : list Log) (errs : list string) :
  read_all sched (Chan logs true) (Chan [] true)
    = Some (String.concat "" ((λ l, render (inl l)) <$> logs)) ∧
  read_all sched (Chan [] true) (Chan errs true)
    = Some (String.concat "" ((λ e, e +:+ nl) <$> errs)).
Proof.
  split.
  - destruct (run_start sched (Chan logs true) (Chan [] true))
      as (ex & s & evs & Hrun & Hint & Hpipe & Hl & He & Hex).
    simpl in Hint, Hl, He. apply interleave_nil_r in Hint. subst evs.
    unfold read_all. rewrite Hrun.
    assert (ex = PipeClosed) as -> by (apply Hex; split; [by apply Hl | by apply He]).
    unfold merged. by rewrite Hpipe, <- list_fmap_compose.
  - destruct (run_start sched (Chan [] true) (Chan errs true))
      as (ex & s & evs & Hrun & Hint & Hpipe & Hl & He & Hex).
    simpl in Hint, Hl, He. apply interleave_nil_l in Hint. subst evs.
    unfold read_all. rewrite Hrun.
    assert (ex = PipeClosed) as -> by (apply Hex; split; [by apply Hl | by apply He]).
    unfold merged. by rewrite Hpipe, <- list_fmap_compose.
Qed.
End MoreMergeFacts.

Section TagFacts.
Import Keys.
Context {Time : Type}.

(** X14: the tags of the snapshot object: none for a nil metadata;
    otherwise exactly the nine keys, none of them overwritten by another,
    each holding its field of the metadata, the duration as a decimal
    number. *)
Theorem resolveMetadata_tags (m : ObjectMeta Time) :
  resolveMetadata (@None (ObjectMeta Time)) = ∅ ∧
  let tags := resolveMetadata (Some m) in
  dom tags = list_to_set ["application"; "cluster"; "environment"; "operator";
                          "pipelineRun"; "pipeline"; "result"; "duration";
                          "creationTimestamp"] ∧
  size tags = 9%nat ∧
  tags !! "application" = Some (Application m) ∧
  tags !! "cluster" = Some (Cluster m) ∧
  tags !! "environment" = Some (Environment m) ∧
  tags !! "operator" = Some (Operator m) ∧
  tags !! "pipelineRun" = Some (Name (PipelineRun m)) ∧
  tags !! "pipeline" = Some (Pipeline (PipelineRun m)) ∧
  tags !! "result" = Some (Result (PipelineRun m)) ∧
  tags !! "duration" = Some (Itoa (DurationSeconds (PipelineRun m))) ∧
  tags !! "creationTimestamp" = Some (CreationTimestamp m).
Proof.
  split; [done|]. intros tags. subst tags. unfold resolveMetadata.
  split_and!; by simplify_map_eq.
Qed.
End TagFacts.

Section EnvironmentFacts.
Import Environments.
Variable ModelEnvironment : Type.
Variable model_Name : ModelEnvironment → string.
Variable model_DisplayName : ModelEnvironment → string.

Abbreviation view := (λ env : ModelEnvironment,
  {| Name := model_Name env; DisplayName := model_DisplayName env |}).
Abbreviation range := (range_envs ModelEnvironment model_Name model_DisplayName).

Lemma range_envs_all (ms : list ModelEnvironment) (acc : list Environment) :
  range (Some <$> ms) acc = Some (acc ++ (view <$> ms)).
Proof.
  revert acc. induction ms as [|e ms IH]; intros acc; simpl.
  - by rewrite app_nil_r.
  - rewrite IH. by rewrite <- app_assoc.
Qed.

Lemma range_envs_nil (envs : list (option ModelEnvironment)) (acc : list Environment) :
  None ∈ envs → range envs acc = None.
Proof.
  revert acc. induction envs as [|[e|] envs IH]; intros acc Hin; simpl.
  - by apply elem_of_nil in Hin.
  - apply IH. apply elem_of_cons in Hin as [Hin|Hin]; [done|exact Hin].
  - done.
Qed.

Lemma all_or_nil (envs : list (option ModelEnvironment)) :
  (∃ ms, envs = Some <$> ms) ∨ None ∈ envs.
Proof.
  induction envs as [|[e|] envs IH].
  - left. by exists [].
  - destruct IH as [[ms ->]|Hin].
    + left. by exists (e :: ms).
    + right. by apply list_elem_of_further.
  - right. apply list_elem_of_here.
Qed.

(** X15: ofEnvironmentModels panics exactly when one of the stored
    environments is nil; otherwise it returns one view per stored
    environment, in the same order, each with the Name and the DisplayName
    of its environment, and an empty list for no environment. *)
Theorem ofEnvironmentModels_views (envs : list (option ModelEnvironment)) :
  (ofEnvironmentModels ModelEnvironment model_Name model_DisplayName envs = None
     ↔ None ∈ envs) ∧
  (∀ out,
     ofEnvironmentModels ModelEnvironment model_Name model_DisplayName envs = Some out →
     length out = length envs ∧
     ∀ i env, envs !! i = Some (Some env) → out !! i = Some (view env)) ∧
  (∀ ms,
     ofEnvironmentModels ModelEnvironment model_Name model_DisplayName (Some <$> ms)
       = Some (view <$> ms)).
Proof.
  unfold ofEnvironmentModels. split_and!.
  - destruct (all_or_nil envs) as [[ms ->]|Hin].
    + rewrite range_envs_all. split; [done|].
      intros Hin. apply list_elem_of_fmap in Hin as (e & Heq & _). done.
    + by rewrite range_envs_nil.
  - intros out Hout. destruct (all_or_nil envs) as [[ms ->]|Hin].
    + rewrite range_envs_all in Hout. simpl in Hout. injection Hout as <-.
      split; [by rewrite !length_fmap|].
      intros i env. rewrite !list_lookup_fmap.
      destruct (ms !! i) as [e|]; simpl; intros; by simplify_eq.
    + by rewrite range_envs_nil in Hout.
  - intros ms. by rewrite range_envs_all.
Qed.
End EnvironmentFacts.

(** ** The further theorems at the sample inputs *)
Section MoreSampleRuns.
Import GoSlice Merge Keys Errors Collector Store Samples MoreSamples Environments.

(** Ten bytes cut with begin 2 and end 6: the tail starts inside the
    marker, and the result still has 2 + 6 + 4 bytes. *)
Lemma cutByteInMiddle_shape_witness :
  slice_wf (alloc ten six_spare).2 (alloc ten six_spare).1 ∧
  ∃ b1 r h',
    slice_to (alloc ten six_spare).1 2 = Some b1 ∧
    cutByteInMiddle (λ _ _, 0%nat) (alloc ten six_spare).2 (alloc ten six_spare).1 1 2 6
      = Some (r, h') ∧
    slice_wf h' r ∧
    Z.of_nat (length (bytes_of h' r))
      = 2 + 6 + (Z.of_nat (len (alloc ten six_spare).1) - 6) ∧
    take (Z.to_nat 2 + 6) (bytes_of h' r)
      = bytes_of (alloc ten six_spare).2 b1 ++ marker.
Proof.
  split; [apply alloc_wf|].
  apply (cutByteInMiddle_shape (λ _ _, 0%nat) _ _ 1 2 6 (alloc_wf ten six_spare));
    vm_compute; intuition discriminate.
Defined.

(** Ten bytes cut with begin 1 and end 8. *)
Lemma cutByteInMiddle_in_place_witness :
  slice_wf (alloc ten six_spare).2 (alloc ten six_spare).1 ∧
  ∃ r h',
    cutByteInMiddle (λ _ _, 0%nat) (alloc ten six_spare).2 (alloc ten six_spare).1 1 1 8
      = Some (r, h') ∧
    ptr r = ptr (alloc ten six_spare).1 ∧ off r = off (alloc ten six_spare).1 ∧
    bytes_of h' r =
      take (Z.to_nat 1) (bytes_of (alloc ten six_spare).2 (alloc ten six_spare).1)
        ++ marker
        ++ drop (Z.to_nat 8) (bytes_of (alloc ten six_spare).2 (alloc ten six_spare).1) ∧
    bytes_of h' (alloc ten six_spare).1 =
      bytes_of h' r
        ++ drop (len r) (bytes_of (alloc ten six_spare).2 (alloc ten six_spare).1) ∧
    (∀ p, p ≠ ptr (alloc ten six_spare).1 → h' !! p = (alloc ten six_spare).2 !! p).
Proof.
  split; [apply alloc_wf|].
  apply (cutByteInMiddle_in_place (λ _ _, 0%nat) _ _ 1 1 8 (alloc_wf ten six_spare));
    vm_compute; intuition discriminate.
Defined.

Lemma audit_line_bounded_witness :
  cut_audit_line sample_world (list_byte_of_string "{}") []
    = Some (list_byte_of_string "{}") ∧
  Z.of_nat (length (list_byte_of_string "{}")) < _limitSize.
Proof.
  split; [reflexivity|].
  apply (audit_line_bounded sample_world (list_byte_of_string "{}") [] _ eq_refl).
Defined.

Lemma sample_Collect :
  Collect sample_world "build-42" () [] = (collected_trace, Returns (Val collected_result)).
Proof. vm_compute. reflexivity. Qed.

Lemma keeping_Collect :
  Collect keeping_world "build-42" () [] = (collected_trace, Returns (Val collected_result)).
Proof. vm_compute. reflexivity. Qed.

Lemma keeping_world_keeps : keeps_puts keeping_world.
Proof. intros t key body H. simpl. by rewrite H. Qed.

Lemma Collect_call_order_witness :
  Collect sample_world "build-42" () [] = (collected_trace, Returns (Val collected_result)) ∧
  kind_of <$> collected_trace `prefix_of` collect_order ∧
  (∀ line, Println_call line ∈ collected_trace →
     Z.of_nat (String.length line) < _limitSize).
Proof.
  split; [exact sample_Collect|].
  destruct (Collect_call_order sample_world "build-42" () [] collected_trace
              collected_trace _ sample_Collect eq_refl) as (Hord & _ & Hline).
  split; [exact Hord | exact Hline].
Defined.

Lemma Collect_success_calls_witness :
  ∃ text body line d,
    collected_trace =
      [GetPipelineRunLog_call "build-42"%string;
       GetSignedObjectURL_call (cr_LogObject collected_result) (30 * 24 * 3600 * 10 ^ 9);
       PutObject_call (cr_LogObject collected_result) (list_byte_of_string text) None None;
       GetSignedObjectURL_call (cr_PrObject collected_result) (30 * 24 * 3600 * 10 ^ 9);
       PutObject_call (cr_PrObject collected_result) body
         (Some (resolveMetadata (Some example_meta))) None;
       Println_call line; GetBucket_call;
       DeletePipelineRun_call "build-42"%string d] ∧
    (d = None ∨ ∃ err, d = Some err ∧ cause_is_NotFound err = true).
Proof.
  destruct (Collect_success_calls sample_world "build-42" () [] collected_trace
              collected_result sample_Collect)
    as (text & body & line & d & Ht & _ & Hd & _).
  exists text, body, line, d. split; [exact Ht | exact Hd].
Defined.

(** The error channel of "build-42" is never closed in the stalled world:
    Collect signs the log key and never returns. *)
Lemma Collect_hangs_iff_witness :
  Collect stalled_world "build-42" () [] =
    ([GetPipelineRunLog_call "build-42"%string;
      GetSignedObjectURL_call "202401/pr-log/shop-7/prod-3/build-42" _expireTimeDuration],
     Hangs).
Proof.
  apply (Collect_hangs_iff stalled_world "build-42" () []).
  eexists _, _, _. split; [reflexivity|]. split; [reflexivity|].
  split; [by right | reflexivity].
Defined.

Lemma collectLog_orchestrator_errors_witness :
  Collect stalled_world "lost" () []
    = ([GetPipelineRunLog_call "lost"%string],
       Returns (Fail (HorizonErrNotFound Errors.Pipelinerun ""))) ∧
  Collect stalled_world "other" () []
    = ([GetPipelineRunLog_call "other"%string],
       Returns (Fail (HorizonErrGetFailed Errors.Pipelinerun ""))).
Proof.
  split.
  - apply (collectLog_orchestrator_errors stalled_world "lost" () []
             (StatusError "NotFound") eq_refl).
  - apply (collectLog_orchestrator_errors stalled_world "other" () []
             (ErrorString "unreachable") eq_refl).
Defined.

Lemma collected_run_reads_back_witness :
  keeps_puts keeping_world ∧
  GetPipelineRun keeping_world
    {| PrObject := cr_PrObject collected_result;
       LogObject := cr_LogObject collected_result; CIEventID := "ev-1" |}
    collected_trace
    = (collected_trace ++ [GetObject_call (cr_PrObject collected_result)],
       Returns (Val (Some "build-42"%string))).
Proof.
  split; [exact keeping_world_keeps|].
  apply (collected_run_reads_back keeping_world "build-42" () [] collected_trace
           collected_result "ev-1" keeping_world_keeps).
  - intros body _. reflexivity.
  - exact keeping_Collect.
Defined.

Lemma collected_log_reads_back_witness :
  ∃ text,
    PutObject_call (cr_LogObject collected_result) (list_byte_of_string text) None None
      ∈ collected_trace ∧
    GetPipelineRunLog keeping_world
      {| PrObject := cr_PrObject collected_result;
         LogObject := cr_LogObject collected_result; CIEventID := "ev-1" |}
      collected_trace
      = (collected_trace ++ [GetObject_call (cr_LogObject collected_result)],
         Returns (Val {| LogBytes := Some (list_byte_of_string text);
                         LogChannel := None; ErrChannel := None |})).
Proof.
  apply (collected_log_reads_back keeping_world "build-42" () [] collected_trace
           collected_result "ev-1" keeping_world_keeps keeping_Collect).
Defined.

(** The store holds the JSON null under the key "null": reading the run
    panics. *)
Lemma GetPipelineRun_persisted_witness :
  PrObject {| PrObject := "null"; LogObject := ""; CIEventID := "ev-1" |} ≠ "" ∧
  GetPipelineRun stalled_world
    {| PrObject := "null"; LogObject := ""; CIEventID := "ev-1" |} []
    = ([GetObject_call "null"], Panics).
Proof.
  split; [discriminate|].
  refine (proj2 (proj2 (proj2 (GetPipelineRun_persisted stalled_world
    {| PrObject := "null"; LogObject := ""; CIEventID := "ev-1" |} [] _)))
    (list_byte_of_string "null") eq_refl eq_refl).
  discriminate.
Defined.
End MoreSampleRuns.
